(** * AgriAssist backend monitoring: a shallow embedding of [monitoring.py]

    The module [src/firestudio/backend/monitoring.py] declares five
    Prometheus instruments, configures a structlog processor chain, and
    offers the [monitor_endpoint] decorator, two event recorders and a
    health check.  The Python code is embedded as functions over an explicit
    world (clock, metric store, logging configuration, log sink), in a
    state-and-exception monad.

    Floats are modelled by exact rationals ([Q]): only differences and
    their sign are used, and IEEE subtraction has the sign of the exact
    difference. *)

From Stdlib Require Import QArith.
From stdpp Require Import base option list strings gmap pretty.

Open Scope string_scope.

(** ** Python values and exceptions *)

(** The values that travel through log events and the health record. *)
#[warnings="-register-all"] Inductive PyVal : Type :=
| VNone
| VBool (b : bool)
| VStr (s : string)
| VBytes (bs : list Byte.byte)
| VFloat (x : Q)
| VTuple (xs : list PyVal)
| VDict (kvs : list (string * PyVal)).

(** A [dict] with string keys, in insertion order. *)
Definition PyDict : Type := list (string * PyVal).

Fixpoint dict_get (k : string) (d : PyDict) : option PyVal :=
  match d with
  | [] => None
  | (k', v) :: d' => if String.eqb k k' then Some v else dict_get k d'
  end.

(** [d[k] = v]: an existing key keeps its position, a new one goes last. *)
Fixpoint dict_set (k : string) (v : PyVal) (d : PyDict) : PyDict :=
  match d with
  | [] => [(k, v)]
  | (k', v') :: d' =>
      if String.eqb k k' then (k, v) :: d' else (k', v') :: dict_set k v d'
  end.

Fixpoint dict_del (k : string) (d : PyDict) : PyDict :=
  match d with
  | [] => []
  | (k', v') :: d' =>
      if String.eqb k k' then d' else (k', v') :: dict_del k d'
  end.

(** [d.update] with keyword arguments *)
Definition dict_update (d kw : PyDict) : PyDict :=
  fold_left (fun acc kv => dict_set (fst kv) (snd kv) acc) kw d.

(** Python truthiness, on the values above. *)
Definition truthy (v : PyVal) : bool :=
  match v with
  | VNone => false
  | VBool b => b
  | VStr s => negb (String.eqb s "")
  | VBytes bs => match bs with [] => false | _ => true end
  | VFloat x => negb (Qeq_bool x 0)
  | VTuple xs => match xs with [] => false | _ => true end
  | VDict kvs => match kvs with [] => false | _ => true end
  end.

(** Exception classes.  [except Exception] catches the instances of
    [Exception]; the classes after [UserException] derive from
    [BaseException] only ([DropEvent] is structlog's). *)
Inductive ExcClass : Type :=
| ValueError
| TypeError
| OSError
| RuntimeError
| KeyError
| UserException (cls : string)
| DropEvent
| CancelledError
| KeyboardInterrupt
| SystemExit
| GeneratorExit.

Record exn : Type := mkExn { exc_class : ExcClass; exc_msg : string }.

Definition is_Exception (e : exn) : bool :=
  match exc_class e with
  | DropEvent | CancelledError | KeyboardInterrupt | SystemExit
  | GeneratorExit => false
  | _ => true
  end.

(** [str(e)] for an exception built from one message. *)
Definition str_exn (e : exn) : string := exc_msg e.

(** ** Logging levels *)

Inductive LogMethod : Type := DEBUG | INFO | WARNING | ERROR | CRITICAL.

Definition level_no (m : LogMethod) : nat :=
  match m with
  | DEBUG => 10 | INFO => 20 | WARNING => 30 | ERROR => 40 | CRITICAL => 50
  end.

Definition method_name (m : LogMethod) : string :=
  match m with
  | DEBUG => "debug" | INFO => "info" | WARNING => "warning"
  | ERROR => "error" | CRITICAL => "critical"
  end.

(** One call of a bound-logger method: [logger.<method>(event, **kw)]. *)
Record LogCall : Type := mkLogCall {
  lc_method : LogMethod;
  lc_event : string;
  lc_fields : PyDict
}.

(** ** The world *)

Record World : Type := mkWorld {
  (** successive readings of the system clock, and how many were taken *)
  clock : nat -> Q;
  ticks : nat;
  (** [CollectorRegistry]: the time-series names taken so far *)
  registry : gset string;
  (** counter values, by metric name and label values *)
  counters : gmap (string * list string) nat;
  (** histogram observations, by metric name and label values *)
  histograms : gmap (string * list string) (list Q);
  (** effective level of the stdlib logger behind structlog *)
  log_level : nat;
  (** faults of the coming sink writes: [Some e] makes the write raise [e]
      (a handler or a filter that lets its error out) *)
  sink_faults : list (option exn);
  (** the lines written to the sink *)
  sink : list string;
  (** trace of the bound-logger calls made so far; the program never reads
      it *)
  emitted : list LogCall
}.

(** ** Computations: state passing with Python exceptions *)

Inductive Outcome (A : Type) : Type :=
| Return (a : A)
| Raise (e : exn).
Arguments Return {A} a.
Arguments Raise {A} e.

Definition M (A : Type) : Type := World -> Outcome A * World.

Global Instance M_ret : MRet M := fun A a w => (Return a, w).

Global Instance M_bind : MBind M := fun A B f m w =>
  match m w with
  | (Return a, w') => f a w'
  | (Raise e, w') => (Raise e, w')
  end.

Definition raise {A} (e : exn) : M A := fun w => (Raise e, w).

(** [try: body / except Exception as e: handler e] *)
Definition try_except {A} (body : M A) (handler : exn -> M A) : M A :=
  fun w =>
    match body w with
    | (Return a, w') => (Return a, w')
    | (Raise e, w') =>
        if is_Exception e then handler e w' else (Raise e, w')
    end.

(** [try: body / finally: fin].  The outcome of [body] stands unless [fin]
    raises. *)
Definition try_finally {A} (body : M A) (fin : M unit) : M A :=
  fun w =>
    match body w with
    | (o, w') =>
        match fin w' with
        | (Return _, w'') => (o, w'')
        | (Raise e', w'') => (Raise e', w'')
        end
    end.

(** ** [time.time()] *)

Definition now (w : World) : Q := clock w (ticks w).

Definition tick (w : World) : World :=
  mkWorld (clock w) (S (ticks w)) (registry w) (counters w) (histograms w)
          (log_level w) (sink_faults w) (sink w) (emitted w).

Definition time_time : M Q := fun w => (Return (now w), tick w).

(** ** World updates *)

Definition set_registry (r : gset string) (w : World) : World :=
  mkWorld (clock w) (ticks w) r (counters w) (histograms w)
          (log_level w) (sink_faults w) (sink w) (emitted w).

Definition set_counters (c : gmap (string * list string) nat) (w : World)
  : World :=
  mkWorld (clock w) (ticks w) (registry w) c (histograms w)
          (log_level w) (sink_faults w) (sink w) (emitted w).

Definition set_histograms (h : gmap (string * list string) (list Q))
           (w : World) : World :=
  mkWorld (clock w) (ticks w) (registry w) (counters w) h
          (log_level w) (sink_faults w) (sink w) (emitted w).

Definition set_sink (faults : list (option exn)) (s : list string)
           (w : World) : World :=
  mkWorld (clock w) (ticks w) (registry w) (counters w) (histograms w)
          (log_level w) faults s (emitted w).

Definition set_emitted (l : list LogCall) (w : World) : World :=
  mkWorld (clock w) (ticks w) (registry w) (counters w) (histograms w)
          (log_level w) (sink_faults w) (sink w) l.

(** The kinds of metric the module uses. *)
Inductive MetricType : Type := counter | histogram | gauge.

(** ** What the libraries leave to the platform

    The parts of prometheus_client, structlog and the standard library that
    produce text or check names are not part of [monitoring.py]; they are
    taken as given. *)
Record Externals : Type := mkExternals {
  (** prometheus_client's check of a metric name and its label names *)
  valid_metric : MetricType -> string -> list string -> bool;
  (** [__name__] of the module that called [structlog.get_logger()] *)
  logger_name : string;
  (** [datetime.isoformat()] of a clock reading, with the UTC suffix *)
  iso_format : Q -> string;
  (** [event % args] *)
  percent_format : PyVal -> PyVal -> Outcome PyVal;
  (** rendering of the caller's stack *)
  format_stack : string;
  (** rendering of an [exc_info] payload; [None] when the payload asks for
      the exception being handled and there is none *)
  format_exception : PyVal -> option string;
  (** [bytes.decode("utf-8", "replace")] *)
  decode_utf8 : list Byte.byte -> string;
  (** [repr] of a bytes object, the fallback of the JSON renderer *)
  repr_bytes : list Byte.byte -> string;
  (** JSON text of a string and of a float *)
  json_str : string -> string;
  json_float : Q -> string
}.

(** ** prometheus_client *)

(** A metric object.  [m_labelvalues] is [()] on the object a constructor
    returns and is set on the children that [labels] hands out. *)
Record Metric : Type := mkMetric {
  m_type : MetricType;
  m_name : string;
  m_documentation : string;
  m_labelnames : list string;
  m_labelvalues : list string
}.

(** [s.removesuffix(suf)], when [s.endswith(suf)]. *)
Fixpoint strip_suffix (suf s : string) : option string :=
  if String.eqb s suf then Some ""
  else match s with
       | EmptyString => None
       | String c s' => String c <$> strip_suffix suf s'
       end.

(** [_build_full_name]: a counter is stored without its [_total] suffix. *)
Definition build_full_name (t : MetricType) (name : string) : string :=
  match t with
  | counter => default name (strip_suffix "_total" name)
  | _ => name
  end.

Definition type_suffixes (t : MetricType) : list string :=
  match t with
  | counter => ["_total"; "_created"]
  | histogram => ["_bucket"; "_sum"; "_count"; "_created"]
  | gauge => []
  end.

(** [CollectorRegistry._get_names]: the time series a metric exposes. *)
Definition get_names (m : Metric) : list string :=
  m_name m
  :: map (fun suffix => m_name m +:+ suffix) (type_suffixes (m_type m)).

Definition duplicated (names : list string) (w : World) : bool :=
  existsb (fun n => bool_decide (n ∈ registry w)) names.

Definition DuplicatedTimeseries : exn :=
  mkExn ValueError "Duplicated timeseries in CollectorRegistry".

(** [CollectorRegistry.register] *)
Definition register (m : Metric) : M unit := fun w =>
  if duplicated (get_names m) w then (Raise DuplicatedTimeseries, w)
  else (Return tt, set_registry (list_to_set (get_names m) ∪ registry w) w).

Definition store_key (m : Metric) : string * list string :=
  (m_name m, m_labelvalues m).

(** [_is_observable]: an unlabelled metric, or a child with its labels. *)
Definition is_observable (m : Metric) : bool :=
  match m_labelnames m, m_labelvalues m with
  | [], _ => true
  | _ :: _, _ :: _ => true
  | _ :: _, [] => false
  end.

(** [_metric_init]: the value of a fresh time series. *)
Definition metric_init (m : Metric) : M unit := fun w =>
  match m_type m with
  | counter =>
      match counters w !! store_key m with
      | Some _ => (Return tt, w)
      | None => (Return tt, set_counters (<[store_key m := 0]> (counters w)) w)
      end
  | histogram =>
      match histograms w !! store_key m with
      | Some _ => (Return tt, w)
      | None =>
          (Return tt, set_histograms (<[store_key m := []]> (histograms w)) w)
      end
  | gauge => (Return tt, w)
  end.

Definition MissingLabelValues : exn :=
  mkExn ValueError "metric is missing label values".

(** [Counter.inc()], with the default amount 1. *)
Definition inc (m : Metric) : M unit := fun w =>
  if is_observable m then
    (Return tt,
     set_counters
       (<[store_key m := S (default 0 (counters w !! store_key m))]>
          (counters w)) w)
  else (Raise MissingLabelValues, w).

(** [Histogram.observe(amount)].  The histogram is kept as the sequence of
    its observations; count, sum and buckets are functions of it. *)
Definition observe (m : Metric) (amount : Q) : M unit := fun w =>
  if is_observable m then
    (Return tt,
     set_histograms
       (<[store_key m :=
            (default [] (histograms w !! store_key m) ++ [amount])%list]>
          (histograms w)) w)
  else (Raise MissingLabelValues, w).

(** [labelkwargs[l]] *)
Fixpoint kw_get (l : string) (kw : list (string * string)) : option string :=
  match kw with
  | [] => None
  | (k, v) :: kw' => if String.eqb l k then Some v else kw_get l kw'
  end.

Definition NoLabelNames : exn :=
  mkExn ValueError "No label names were set when constructing the metric".

(** [metric.labels], called with positional values or with keywords *)
Definition labels (m : Metric) (labelvalues : list string)
           (labelkwargs : list (string * string)) : M Metric :=
  let child (vs : list string) : M Metric :=
    let c := mkMetric (m_type m) (m_name m) (m_documentation m)
                      (m_labelnames m) vs in
    metric_init c;; mret c in
  match m_labelnames m with
  | [] => raise NoLabelNames
  | _ :: _ =>
      match m_labelvalues m with
      | _ :: _ =>
          raise (mkExn ValueError "metric already has labels set")
      | [] =>
          match labelvalues, labelkwargs with
          | _ :: _, _ :: _ =>
              raise (mkExn ValueError "Can't pass both *args and **kwargs")
          | _, _ :: _ =>
              if bool_decide (labelkwargs.*1 ≡ₚ m_labelnames m)
              then child (map (fun l => default "" (kw_get l labelkwargs))
                              (m_labelnames m))
              else raise (mkExn ValueError "Incorrect label names")
          | _, [] =>
              if Nat.eqb (length labelvalues) (length (m_labelnames m))
              then child labelvalues
              else raise (mkExn ValueError "Incorrect label count")
          end
      end
  end.

Section Monitoring.

Context (X : Externals).

(** The object a metric constructor builds. *)
Definition metric_object (t : MetricType) (name documentation : string)
           (labelnames : list string) : Metric :=
  mkMetric t (build_full_name t name) documentation labelnames [].

(** The constructors [Counter], [Histogram] and [Gauge]: build the full
    name, check it and register the metric.  The values of an unlabelled
    metric belong to the new object; they enter the store once the object
    is registered, since a rejected object is dropped. *)
Definition new_metric (t : MetricType) (name documentation : string)
           (labelnames : list string) : M Metric :=
  let m := metric_object t name documentation labelnames in
  if valid_metric X t (m_name m) labelnames then
    register m;;
    (if is_observable m then metric_init m else mret tt);;
    mret m
  else raise (mkExn ValueError "Invalid metric name").

Definition Counter := new_metric counter.
Definition Histogram := new_metric histogram.
Definition Gauge := new_metric gauge.

(** ** structlog *)

Inductive Processor : Type :=
| filter_by_level
| add_logger_name
| add_log_level
| PositionalArgumentsFormatter
| TimeStamper_iso
| StackInfoRenderer
| format_exc_info
| UnicodeDecoder
| JSONRenderer.

(** [json.dumps] with the default separators; bytes go through the
    renderer's [repr] fallback. *)
Fixpoint json_dumps (v : PyVal) : string :=
  match v with
  | VNone => "null"
  | VBool b => if b then "true" else "false"
  | VStr s => json_str X s
  | VBytes bs => json_str X (repr_bytes X bs)
  | VFloat x => json_float X x
  | VTuple xs => "[" +:+ String.concat ", " (map json_dumps xs) +:+ "]"
  | VDict kvs =>
      "{" +:+ String.concat ", "
                (map (fun kv => let '(k, x) := kv in
                                json_str X k +:+ ": " +:+ json_dumps x) kvs)
          +:+ "}"
  end.

Definition decode_value (v : PyVal) : PyVal :=
  match v with
  | VBytes bs => VStr (decode_utf8 X bs)
  | _ => v
  end.

(** The arguments handed to [%]: a single non-empty dict argument is
    unwrapped, as the stdlib's logging does.  The test takes [len(args)]
    and [args[0]], which fail on a number and on a one-entry dict. *)
Definition format_args (args : PyVal) : Outcome PyVal :=
  match args with
  | VTuple [VDict (kv :: kvs)] => Return (VDict (kv :: kvs))
  | VTuple _ | VStr _ | VBytes _ => Return args
  | VDict [_] => Raise (mkExn KeyError "0")
  | VDict _ => Return args
  | VNone | VBool _ | VFloat _ =>
      Raise (mkExn TypeError "object has no len()")
  end.

(** [filter_by_level]: drop the event below the logger's level. *)
Definition run_filter_by_level (m : LogMethod) (d : PyDict) : M PyDict :=
  fun w =>
    if Nat.leb (log_level w) (level_no m) then (Return d, w)
    else (Raise (mkExn DropEvent ""), w).

Definition run_add_logger_name (d : PyDict) : PyDict :=
  dict_set "logger" (VStr (logger_name X)) d.

Definition run_add_log_level (m : LogMethod) (d : PyDict) : PyDict :=
  dict_set "level" (VStr (method_name m)) d.

(** [PositionalArgumentsFormatter()]: interpolate the event text with the
    positional arguments, when there are some, and remove them. *)
Definition run_PositionalArgumentsFormatter (d : PyDict) : Outcome PyDict :=
  match dict_get "positional_args" d with
  | None => Return d
  | Some VNone => Return d
  | Some args =>
      if truthy args then
        match dict_get "event" d with
        | None => Raise (mkExn KeyError "event")
        | Some event =>
            match format_args args with
            | Return args' =>
                match percent_format X event args' with
                | Return event' =>
                    Return (dict_del "positional_args"
                              (dict_set "event" event' d))
                | Raise e => Raise e
                end
            | Raise e => Raise e
            end
        end
      else Return (dict_del "positional_args" d)
  end.

(** [TimeStamper(fmt="iso")], on the clock reading [t]. *)
Definition run_TimeStamper (t : Q) (d : PyDict) : PyDict :=
  dict_set "timestamp" (VStr (iso_format X t)) d.

Definition run_StackInfoRenderer (d : PyDict) : PyDict :=
  match dict_get "stack_info" d with
  | None => d
  | Some v =>
      if truthy v
      then dict_set "stack" (VStr (format_stack X)) (dict_del "stack_info" d)
      else dict_del "stack_info" d
  end.

Definition run_format_exc_info (d : PyDict) : PyDict :=
  match dict_get "exc_info" d with
  | None => d
  | Some v =>
      if truthy v
      then match format_exception X v with
           | Some text => dict_set "exception" (VStr text)
                                   (dict_del "exc_info" d)
           | None => dict_del "exc_info" d
           end
      else dict_del "exc_info" d
  end.

Definition run_UnicodeDecoder (d : PyDict) : PyDict :=
  map (fun kv => (fst kv, decode_value (snd kv))) d.

Definition run_JSONRenderer (d : PyDict) : string := json_dumps (VDict d).

(** One processor applied to what the previous one returned, for the
    method [m] of the bound logger. *)
Definition apply_processor (p : Processor) (m : LogMethod) (ev : PyVal)
  : M PyVal :=
  match ev with
  | VDict d =>
      match p with
      | filter_by_level => d' ← run_filter_by_level m d; mret (VDict d')
      | add_logger_name => mret (VDict (run_add_logger_name d))
      | add_log_level => mret (VDict (run_add_log_level m d))
      | PositionalArgumentsFormatter =>
          match run_PositionalArgumentsFormatter d with
          | Return d' => mret (VDict d')
          | Raise e => raise e
          end
      | TimeStamper_iso => t ← time_time; mret (VDict (run_TimeStamper t d))
      | StackInfoRenderer => mret (VDict (run_StackInfoRenderer d))
      | format_exc_info => mret (VDict (run_format_exc_info d))
      | UnicodeDecoder => mret (VDict (run_UnicodeDecoder d))
      | JSONRenderer => mret (VStr (run_JSONRenderer d))
      end
  | _ => raise (mkExn TypeError "processor applied to a non-dict event")
  end.

(** [for proc in self._processors: event_dict = proc(...)] *)
Fixpoint run_processors (ps : list Processor) (m : LogMethod) (ev : PyVal)
  : M PyVal :=
  match ps with
  | [] => mret ev
  | p :: ps' => ev' ← apply_processor p m ev; run_processors ps' m ev'
  end.

(** The write of one line to the sink behind the stdlib logger. *)
Definition sink_write (line : string) : M unit := fun w =>
  match sink_faults w with
  | Some e :: rest => (Raise e, set_sink rest (sink w) w)
  | None :: rest => (Return tt, set_sink rest (sink w ++ [line])%list w)
  | [] => (Return tt, set_sink [] (sink w ++ [line])%list w)
  end.

(** [logging.Logger.<method>(line)]: at an enabled level the logger makes
    a [LogRecord], which reads the clock for its creation time, and hands
    it to the handlers. *)
Definition stdlib_log (m : LogMethod) (line : string) : M unit := fun w =>
  if Nat.leb (log_level w) (level_no m) then sink_write line (tick w)
  else (Return tt, w).

(** ** The module [monitoring.py] *)

(** *** Prometheus metrics (lines 8 to 12) *)

Definition REQUEST_COUNT : Metric :=
  metric_object counter "agriassist_requests_total" "Total requests"
                ["method"; "endpoint"].
Definition REQUEST_DURATION : Metric :=
  metric_object histogram "agriassist_request_duration_seconds"
                "Request duration" [].
Definition ACTIVE_CONNECTIONS : Metric :=
  metric_object gauge "agriassist_active_connections" "Active connections" [].
Definition SENSOR_DATA_COUNT : Metric :=
  metric_object counter "agriassist_sensor_data_total"
                "Total sensor data points" [].
Definition MODEL_PREDICTIONS : Metric :=
  metric_object counter "agriassist_model_predictions_total"
                "ML model predictions" ["model_type"].

(** The five constructor calls, as the import of the module runs them. *)
Definition define_metrics : M unit :=
  Counter "agriassist_requests_total" "Total requests" ["method"; "endpoint"];;
  Histogram "agriassist_request_duration_seconds" "Request duration" [];;
  Gauge "agriassist_active_connections" "Active connections" [];;
  Counter "agriassist_sensor_data_total" "Total sensor data points" [];;
  Counter "agriassist_model_predictions_total" "ML model predictions"
          ["model_type"];;
  mret tt.

(** *** Structured logging (lines 15 to 33) *)

Definition processors : list Processor :=
  [ filter_by_level;
    add_logger_name;
    add_log_level;
    PositionalArgumentsFormatter;
    TimeStamper_iso;
    StackInfoRenderer;
    format_exc_info;
    UnicodeDecoder;
    JSONRenderer ].

(** [BoundLogger._process_event]: the logger of line 33 has an empty
    context; the keywords are copied in, then the event text. *)
Definition process_event (m : LogMethod) (event : string) (event_kw : PyDict)
  : M PyVal :=
  run_processors processors m
    (VDict (dict_set "event" (VStr event) (dict_update [] event_kw))).

(** [BoundLogger._proxy_to_logger]: a [DropEvent] ends the call silently,
    a rendered text is handed to the stdlib logger.  The call is entered
    in the trace first. *)
Definition proxy_to_logger (m : LogMethod) (event : string)
           (event_kw : PyDict) : M unit := fun w =>
  match process_event m event event_kw
          (set_emitted (emitted w ++ [mkLogCall m event event_kw])%list w) with
  | (Return (VStr line), w') => stdlib_log m line w'
  | (Return _, w') =>
      (Raise (mkExn TypeError "the last processor returned no text"), w')
  | (Raise e, w') =>
      match exc_class e with
      | DropEvent => (Return tt, w')
      | _ => (Raise e, w')
      end
  end.

Definition logger_info := proxy_to_logger INFO.
Definition logger_error := proxy_to_logger ERROR.

(** *** [monitor_endpoint] (lines 35 to 65) *)

(** Lines 40 and 41: the start instant and the request counter. *)
Definition wrapper_entry (endpoint_name : string) : M Q :=
  start_time ← time_time;
  c ← labels REQUEST_COUNT []
             [("method", "POST"); ("endpoint", endpoint_name)];
  inc c;;
  mret start_time.

(** Lines 44 to 51: the awaited call and the success log. *)
Definition wrapper_body {A} (endpoint_name : string) (start_time : Q)
           (func : M A) : M A :=
  result ← func;
  t ← time_time;
  logger_info "API request completed"
    [ ("endpoint", VStr endpoint_name);
      ("duration", VFloat (t - start_time));
      ("status", VStr "success") ];;
  mret result.

(** Lines 53 to 60: the error log and the bare [raise]. *)
Definition wrapper_except {A} (endpoint_name : string) (start_time : Q)
           (e : exn) : M A :=
  t ← time_time;
  logger_error "API request failed"
    [ ("endpoint", VStr endpoint_name);
      ("duration", VFloat (t - start_time));
      ("error", VStr (str_exn e));
      ("status", VStr "error") ];;
  raise e.

(** Lines 43 to 60: the [try] with its [except Exception] clause. *)
Definition wrapper_try {A} (endpoint_name : string) (start_time : Q)
           (func : M A) : M A :=
  try_except (wrapper_body endpoint_name start_time func)
             (wrapper_except endpoint_name start_time).

(** Line 62: the [finally] block. *)
Definition wrapper_finally (start_time : Q) : M unit :=
  t ← time_time;
  observe REQUEST_DURATION (t - start_time).

(** [monitor_endpoint(endpoint_name)(func)], called and awaited.  The
    arguments of the call are those [func] was closed over; awaiting the
    coroutine runs it to its exit, a result or an exception (a cancellation
    is the exception [CancelledError]). *)
Definition monitor_endpoint {A} (endpoint_name : string) (func : M A) : M A :=
  start_time ← wrapper_entry endpoint_name;
  try_finally (wrapper_try endpoint_name start_time func)
              (wrapper_finally start_time).

(** *** Event recorders (lines 67 to 85) *)

Definition log_sensor_data (device_id data_type : string) : M unit :=
  c ← labels SENSOR_DATA_COUNT [] [];
  inc c;;
  t ← time_time;
  logger_info "Sensor data received"
    [ ("device_id", VStr device_id);
      ("data_type", VStr data_type);
      ("timestamp", VFloat t) ].

Definition log_ml_prediction (model_type : string) (confidence : Q) : M unit :=
  c ← labels MODEL_PREDICTIONS [] [("model_type", model_type)];
  inc c;;
  t ← time_time;
  logger_info "ML prediction made"
    [ ("model_type", VStr model_type);
      ("confidence", VFloat confidence);
      ("timestamp", VFloat t) ].

(** *** [start_metrics_server] (lines 87 to 90) *)

(** [prometheus_client.start_http_server]: it binds the port and serves the
    registry from a thread of its own; it is taken as given. *)
Context (start_http_server : Z -> M unit).

(** The port is 9090 when the caller gives none; the f-string renders it in
    decimal. *)
Definition start_metrics_server (port : option Z) : M unit :=
  let port := default 9090%Z port in
  start_http_server port;;
  logger_info ("Metrics server started on port " +:+ pretty port) [].

(** *** [health_check] (lines 93 to 104) *)

Definition health_check : M PyVal :=
  t ← time_time;
  mret (VDict [ ("status", VStr "healthy");
                ("timestamp", VFloat t);
                ("version", VStr "1.0.0");
                ("services",
                 VDict [ ("database", VStr "connected");
                         ("cache", VStr "connected");
                         ("external_apis", VStr "connected") ]) ]).

(** ** Reading the world *)

Definition counter_value (m : Metric) (labelvalues : list string) (w : World)
  : nat :=
  default 0 (counters w !! (m_name m, labelvalues)).

Definition observations (m : Metric) (w : World) : list Q :=
  default [] (histograms w !! store_key m).

Definition metrics_of (w : World)
  : gset string * gmap (string * list string) nat
    * gmap (string * list string) (list Q) :=
  (registry w, counters w, histograms w).

(** The store keys of the two labelled counters. *)
Definition request_key (endpoint_name : string) : string * list string :=
  ("agriassist_requests", ["POST"; endpoint_name]).

Definition prediction_key (model_type : string) : string * list string :=
  ("agriassist_model_predictions", [model_type]).

(** The stdlib logger lets the level of method [m] through. *)
Definition enabled (m : LogMethod) (w : World) : bool :=
  Nat.leb (log_level w) (level_no m).

(** The next write of a line at the level of [m] raises. *)
Definition sink_raises (m : LogMethod) (w : World) : bool :=
  enabled m w && match sink_faults w with Some _ :: _ => true | _ => false end.

(** The event dict a bound-logger call starts from. *)
Definition initial_event (event : string) (event_kw : PyDict) : PyDict :=
  dict_set "event" (VStr event) (dict_update [] event_kw).

(** The event dict after the enrichment stages that precede the positional
    formatting, and the line rendered from the stages that follow it. *)
Definition enriched (m : LogMethod) (d : PyDict) : PyDict :=
  run_add_log_level m (run_add_logger_name d).

Definition rendered (t : Q) (d : PyDict) : string :=
  run_JSONRenderer
    (run_UnicodeDecoder
       (run_format_exc_info
          (run_StackInfoRenderer (run_TimeStamper t d)))).

(** How a bound-logger call ends when a processor raises [e]: a
    [DropEvent] ends it silently, anything else leaves it. *)
Definition leave {A} (e : exn) (w : World) (dropped : Outcome A)
  : Outcome A * World :=
  match exc_class e with
  | DropEvent => (dropped, w)
  | _ => (Raise e, w)
  end.

(** The stages of the logging pipeline, as the specification names them. *)
Inductive Stage : Type :=
| LevelFilter
| ContextEnrichment
| PositionalFormatting
| TimestampStamping
| ExceptionRendering
| UnicodeNormalization
| Serialization.

Global Instance Stage_eq_dec : EqDecision Stage.
Proof. solve_decision. Defined.

Global Instance Processor_eq_dec : EqDecision Processor.
Proof. solve_decision. Defined.



(** The log calls of the wrapper. *)
Definition success_call (endpoint_name : string) (duration : Q) : LogCall :=
  mkLogCall INFO "API request completed"
    [ ("endpoint", VStr endpoint_name);
      ("duration", VFloat duration);
      ("status", VStr "success") ].

Definition error_call (endpoint_name : string) (duration : Q) (e : exn)
  : LogCall :=
  mkLogCall ERROR "API request failed"
    [ ("endpoint", VStr endpoint_name);
      ("duration", VFloat duration);
      ("error", VStr (str_exn e));
      ("status", VStr "error") ].

(** ** Reading a rendered event *)

(** The event dict the JSON renderer receives, from the dict [d] the
    positional formatter returned and the clock reading [t]. *)
Definition final_event (t : Q) (d : PyDict) : PyDict :=
  run_UnicodeDecoder
    (run_format_exc_info (run_StackInfoRenderer (run_TimeStamper t d))).

(** The same for a call with keywords only. *)
Definition rendered_event (m : LogMethod) (event : string) (kw : PyDict)
           (t : Q) : PyDict :=
  final_event t (enriched m (initial_event event kw)).

(** The keys the processors of the chain write or consume. *)
Definition pipeline_keys : list string :=
  [ "event"; "logger"; "level"; "positional_args"; "timestamp";
    "stack_info"; "stack"; "exc_info"; "exception" ].

(** The wall clock of [w] never goes back. *)
Definition clock_monotone (w : World) : Prop :=
  forall i j : nat, i <= j -> (clock w i <= clock w j)%Q.

(** [n] calls of the wrapped function in a row, each one awaited to its
    exit, whatever the exit is. *)
Definition after_calls {A} (endpoint_name : string) (func : M A) (n : nat)
           (w : World) : World :=
  Nat.iter n (fun w' => snd (monitor_endpoint endpoint_name func w')) w.

(** The fifteen time-series names the five metrics of the module take. *)
Definition module_series : list string :=
  get_names REQUEST_COUNT ++ get_names REQUEST_DURATION
  ++ get_names ACTIVE_CONNECTIONS ++ get_names SENSOR_DATA_COUNT
  ++ get_names MODEL_PREDICTIONS.

(** The names and label names of the five declarations pass the
    library's check. *)
Definition module_names_valid : bool :=
  valid_metric X counter (m_name REQUEST_COUNT) (m_labelnames REQUEST_COUNT)
  && valid_metric X histogram (m_name REQUEST_DURATION)
       (m_labelnames REQUEST_DURATION)
  && valid_metric X gauge (m_name ACTIVE_CONNECTIONS)
       (m_labelnames ACTIVE_CONNECTIONS)
  && valid_metric X counter (m_name SENSOR_DATA_COUNT)
       (m_labelnames SENSOR_DATA_COUNT)
  && valid_metric X counter (m_name MODEL_PREDICTIONS)
       (m_labelnames MODEL_PREDICTIONS).

(** ** Sample data *)

Definition dquote : string := String (Ascii.ascii_of_nat 34) EmptyString.

(** A platform: every metric name passes, texts are rendered crudely. *)
Definition plain_platform : Externals :=
  mkExternals (fun _ _ _ => true) "monitoring"
    (fun _ => "1970-01-01T00:00:00Z")
    (fun event _ => Return event)
    "Stack (most recent call last)"
    (fun _ => Some "Traceback (most recent call last)")
    (fun _ => "")
    (fun _ => "b''")
    (fun s => dquote +:+ s +:+ dquote)
    (fun _ => "0.0").

(** A world at import time: nothing registered, counted, observed or
    written yet. *)
Definition fresh_world (clk : nat -> Q) (level : nat)
           (faults : list (option exn)) : World :=
  mkWorld clk 0 ∅ ∅ ∅ level faults [] [].

(** A clock that advances by one second per reading, and one that is set
    back ten seconds after its first reading. *)
Definition steady_clock (n : nat) : Q := inject_Z (Z.of_nat n).
Definition clock_set_back (n : nat) : Q :=
  match n with O => 100 | S _ => 90 end.

Definition disk_full : exn := mkExn OSError "disk full".
Definition sink_closed : exn := mkExn OSError "sink closed".

(** The keywords of a prediction record, and a cancellation. *)
Definition prediction_fields : PyDict :=
  [ ("model_type", VStr "cnn");
    ("confidence", VFloat (1 # 2));
    ("timestamp", VFloat 0) ].

Definition cancelled : exn := mkExn CancelledError "".

(** The port binds, or is taken. *)
Definition port_free (port : Z) : M unit := mret tt.
Definition port_taken (port : Z) : M unit :=
  raise (mkExn OSError "Address already in use").

(** ** Dictionaries *)

Lemma dict_get_set (k k' : string) (v : PyVal) (d : PyDict) :
  dict_get k (dict_set k' v d)
  = if String.eqb k k' then Some v else dict_get k d.
Proof.
  induction d as [|[k0 v0] d IH]; cbn.
  - reflexivity.
  - destruct (String.eqb k' k0) eqn:E0; cbn.
    + apply String.eqb_eq in E0; subst k0.
      destruct (String.eqb k k'); reflexivity.
    + rewrite IH.
      destruct (String.eqb k k') eqn:E1; [|reflexivity].
      apply String.eqb_eq in E1; subst k'. now rewrite E0.
Qed.

Lemma dict_get_update_None (k : string) (kw d : PyDict) :
  dict_get k kw = None -> dict_get k (dict_update d kw) = dict_get k d.
Proof.
  unfold dict_update. revert d.
  induction kw as [|[k0 v0] kw IH]; intros d H; cbn in *.
  - reflexivity.
  - destruct (String.eqb k k0) eqn:E; [discriminate|].
    rewrite IH by assumption. rewrite dict_get_set. now rewrite E.
Qed.

Lemma keyword_only_formatter (m : LogMethod) (event : string) (kw : PyDict) :
  dict_get "positional_args" kw = None ->
  run_PositionalArgumentsFormatter (enriched m (initial_event event kw))
  = Return (enriched m (initial_event event kw)).
Proof.
  intros H. unfold run_PositionalArgumentsFormatter, enriched,
    run_add_log_level, run_add_logger_name, initial_event.
  rewrite !dict_get_set. cbn.
  rewrite dict_get_update_None by assumption. reflexivity.
Qed.

(** ** The processor chain *)

(** What the configured chain computes: the level filter, then the two
    context processors, the positional formatting, the timestamp, the two
    exception renderers, the decoder, and the JSON text last. *)
Lemma process_event_eq (m : LogMethod) (event : string) (kw : PyDict)
      (w : World) :
  process_event m event kw w
  = if enabled m w then
      match run_PositionalArgumentsFormatter
              (enriched m (initial_event event kw)) with
      | Return d => (Return (VStr (rendered (now w) d)), tick w)
      | Raise e => (Raise e, w)
      end
    else (Raise (mkExn DropEvent ""), w).
Proof.
  unfold process_event, processors, enabled, enriched, rendered,
    initial_event.
  cbv beta iota delta [run_processors apply_processor mbind M_bind mret M_ret
                         raise time_time run_filter_by_level].
  destruct (Nat.leb (log_level w) (level_no m)); [|reflexivity].
  destruct (run_PositionalArgumentsFormatter _) as [d|e]; reflexivity.
Qed.

Lemma proxy_to_logger_eq (m : LogMethod) (event : string) (kw : PyDict)
      (w : World) :
  let w0 := set_emitted (emitted w ++ [mkLogCall m event kw])%list w in
  proxy_to_logger m event kw w
  = if enabled m w then
      match run_PositionalArgumentsFormatter
              (enriched m (initial_event event kw)) with
      | Return d => sink_write (rendered (now w) d) (tick (tick w0))
      | Raise e => leave e w0 (Return tt)
      end
    else (Return tt, w0).
Proof.
  intros w0. unfold proxy_to_logger. fold w0. rewrite process_event_eq.
  assert (Hen : enabled m w0 = enabled m w) by reflexivity. rewrite Hen.
  destruct (enabled m w) eqn:E; [|reflexivity].
  destruct (run_PositionalArgumentsFormatter _) as [d|e].
  - unfold stdlib_log. change (log_level (tick w0)) with (log_level w).
    unfold enabled in E. rewrite E. reflexivity.
  - unfold leave. reflexivity.
Qed.

(** ** The sink and the log calls *)

Lemma sink_write_frame (line : string) (w : World) :
  metrics_of (snd (sink_write line w)) = metrics_of w
  /\ emitted (snd (sink_write line w)) = emitted w
  /\ log_level (snd (sink_write line w)) = log_level w
  /\ clock (snd (sink_write line w)) = clock w
  /\ ticks (snd (sink_write line w)) = ticks w.
Proof.
  unfold sink_write. destruct (sink_faults w) as [|[e|] rest]; cbn; auto.
Qed.

Lemma proxy_to_logger_frame (m : LogMethod) (event : string) (kw : PyDict)
      (w : World) :
  metrics_of (snd (proxy_to_logger m event kw w)) = metrics_of w
  /\ emitted (snd (proxy_to_logger m event kw w))
     = (emitted w ++ [mkLogCall m event kw])%list
  /\ log_level (snd (proxy_to_logger m event kw w)) = log_level w
  /\ clock (snd (proxy_to_logger m event kw w)) = clock w.
Proof.
  rewrite proxy_to_logger_eq. cbv zeta.
  destruct (enabled m w); [|cbn; auto].
  destruct (run_PositionalArgumentsFormatter _) as [d|e].
  - destruct (sink_write_frame (rendered (now w) d)
                (tick (tick (set_emitted
                               (emitted w ++ [mkLogCall m event kw]) w))))
      as (H1 & H2 & H3 & H4 & _).
    rewrite H1, H2, H3, H4. cbn. auto.
  - unfold leave. destruct (exc_class e); cbn; auto.
Qed.

(** A call with keywords only: the formatter has nothing to interpolate. *)
Lemma keyword_call (m : LogMethod) (event : string) (kw : PyDict) (w : World) :
  dict_get "positional_args" kw = None ->
  proxy_to_logger m event kw w
  = if enabled m w then
      sink_write (rendered (now w) (enriched m (initial_event event kw)))
        (tick (tick (set_emitted (emitted w ++ [mkLogCall m event kw]) w)))
    else (Return tt, set_emitted (emitted w ++ [mkLogCall m event kw]) w).
Proof.
  intros H. rewrite proxy_to_logger_eq. cbv zeta.
  rewrite keyword_only_formatter by assumption. reflexivity.
Qed.

Lemma keyword_call_returns (m : LogMethod) (event : string) (kw : PyDict)
      (w : World) :
  dict_get "positional_args" kw = None ->
  sink_raises m w = false ->
  fst (proxy_to_logger m event kw w) = Return tt.
Proof.
  intros H Hq. rewrite keyword_call by assumption.
  unfold sink_raises in Hq. destruct (enabled m w); [|reflexivity].
  unfold sink_write. cbn in *.
  destruct (sink_faults w) as [|[e|] rest]; cbn; congruence.
Qed.

Lemma keyword_call_raises (m : LogMethod) (event : string) (kw : PyDict)
      (w : World) (e : exn) (rest : list (option exn)) :
  dict_get "positional_args" kw = None ->
  enabled m w = true ->
  sink_faults w = Some e :: rest ->
  fst (proxy_to_logger m event kw w) = Raise e
  /\ sink_faults (snd (proxy_to_logger m event kw w)) = rest.
Proof.
  intros H He Hf. rewrite keyword_call by assumption. rewrite He.
  unfold sink_write. cbn. rewrite Hf. cbn. auto.
Qed.

(** ** The three parts of the wrapper *)

Lemma wrapper_entry_eq (endpoint_name : string) (w : World) :
  wrapper_entry endpoint_name w
  = (Return (now w),
     set_counters
       (<[request_key endpoint_name :=
            S (counter_value REQUEST_COUNT ["POST"; endpoint_name] w)]>
          (counters w))
       (tick w)).
Proof.
  unfold wrapper_entry, labels, counter_value, request_key.
  cbn [REQUEST_COUNT metric_object m_labelnames m_labelvalues m_name m_type
       m_documentation fmap list_fmap fst].
  rewrite bool_decide_eq_true_2 by reflexivity.
  cbv beta iota delta [mbind M_bind mret M_ret time_time metric_init inc].
  cbn. destruct (counters w !! _) as [n|] eqn:E; cbn.
  - rewrite E. reflexivity.
  - rewrite lookup_insert_eq. cbn. rewrite insert_insert_eq. reflexivity.
Qed.

Lemma wrapper_finally_eq (start_time : Q) (w : World) :
  wrapper_finally start_time w
  = (Return tt,
     set_histograms
       (<[store_key REQUEST_DURATION :=
            (observations REQUEST_DURATION w ++ [(now w - start_time)%Q])%list]>
          (histograms w))
       (tick w)).
Proof. reflexivity. Qed.

Ltac log_step :=
  match goal with
  | |- context [proxy_to_logger ?m ?ev ?kw ?w] =>
      let H := fresh "Hframe" in
      pose proof (proxy_to_logger_frame m ev kw w) as H;
      destruct (proxy_to_logger m ev kw w) as [[[]|?] ?];
      cbn [fst snd] in H |- *;
      unfold metrics_of in H;
      cbn [registry counters histograms emitted log_level clock tick
           set_emitted] in H;
      destruct H as (? & ? & ? & ?)
  end.

(** The [try] block only logs: the metrics are those [func] left. *)
Lemma wrapper_try_metrics {A} (endpoint_name : string) (start_time : Q)
      (func : M A) (w1 : World) :
  metrics_of (snd (wrapper_try endpoint_name start_time func w1))
  = metrics_of (snd (func w1)).
Proof.
  unfold wrapper_try, try_except, wrapper_body, wrapper_except,
    logger_info, logger_error.
  cbv beta iota delta [mbind M_bind mret M_ret raise time_time].
  unfold metrics_of.
  destruct (func w1) as [[r|e] w2]; cbn [fst snd].
  - log_step; [assumption|].
    destruct (is_Exception e); [|assumption].
    log_step; cbn [snd]; congruence.
  - destruct (is_Exception e); [|reflexivity].
    log_step; assumption.
Qed.

Lemma monitor_endpoint_eq {A} (endpoint_name : string) (func : M A)
      (w : World) :
  monitor_endpoint endpoint_name func w
  = try_finally (wrapper_try endpoint_name (now w) func)
                (wrapper_finally (now w))
                (snd (wrapper_entry endpoint_name w)).
Proof.
  unfold monitor_endpoint. cbv beta iota delta [mbind M_bind].
  rewrite wrapper_entry_eq. reflexivity.
Qed.

(** The [finally] block never raises: the outcome of the wrapper is the
    outcome of the [try] block. *)
Lemma monitor_endpoint_outcome {A} (endpoint_name : string) (func : M A)
      (w : World) :
  fst (monitor_endpoint endpoint_name func w)
  = fst (wrapper_try endpoint_name (now w) func
           (snd (wrapper_entry endpoint_name w)))
  /\ emitted (snd (monitor_endpoint endpoint_name func w))
     = emitted (snd (wrapper_try endpoint_name (now w) func
                       (snd (wrapper_entry endpoint_name w)))).
Proof.
  rewrite monitor_endpoint_eq. unfold try_finally.
  destruct (wrapper_try _ _ _ _) as [o w3].
  rewrite wrapper_finally_eq. cbn. auto.
Qed.

(** ** The wrapper: metrics *)

(** The [finally] block appends its one observation to those the [try]
    block left. *)
Lemma finally_observation {A} (endpoint_name : string) (func : M A)
      (w : World) :
  let w3 := snd (wrapper_try endpoint_name (now w) func
                   (snd (wrapper_entry endpoint_name w))) in
  observations REQUEST_DURATION (snd (monitor_endpoint endpoint_name func w))
  = (observations REQUEST_DURATION w3 ++ [(now w3 - now w)%Q])%list.
Proof.
  intros w3. rewrite monitor_endpoint_eq. unfold try_finally.
  fold w3. destruct (wrapper_try endpoint_name (now w) func _) as [o w3'].
  cbn [snd] in w3. subst w3. rewrite wrapper_finally_eq. cbn [snd].
  unfold observations at 1. cbn [histograms set_histograms].
  rewrite lookup_insert_eq. reflexivity.
Qed.

(** C1.  Every call of the wrapper adds exactly one observation to the
    histogram [REQUEST_DURATION], whatever [func] does (return or raise,
    {e any} exception) and whatever the log calls do (return or raise):
    the [try] block adds none to those [func] left, and the [finally]
    block adds one, the clock reading taken there minus the reading taken
    on entry. *)
Theorem monitor_endpoint_observes_once {A} (endpoint_name : string)
        (func : M A) (w : World) :
  let w1 := snd (wrapper_entry endpoint_name w) in
  let w2 := snd (func w1) in
  let w3 := snd (wrapper_try endpoint_name (now w) func w1) in
  let w4 := snd (monitor_endpoint endpoint_name func w) in
  observations REQUEST_DURATION w3 = observations REQUEST_DURATION w2
  /\ observations REQUEST_DURATION w4
     = (observations REQUEST_DURATION w2 ++ [(now w3 - now w)%Q])%list
  /\ length (observations REQUEST_DURATION w4)
     = S (length (observations REQUEST_DURATION w2)).
Proof.
  intros w1 w2 w3 w4.
  assert (H3 : observations REQUEST_DURATION w3
               = observations REQUEST_DURATION w2).
  { pose proof (wrapper_try_metrics endpoint_name (now w) func w1) as H.
    unfold metrics_of in H. unfold observations, w3, w2. congruence. }
  assert (H4 : observations REQUEST_DURATION w4
               = (observations REQUEST_DURATION w3
                  ++ [(now w3 - now w)%Q])%list)
    by apply finally_observation.
  split; [exact H3|]. rewrite H4, H3. split; [reflexivity|].
  rewrite length_app. cbn. lia.
Qed.

(** C6.  The request counter labelled [("POST", endpoint_name)] is one
    higher in the world [func] starts from than on entry, no other counter
    has moved, [func] runs from that world, and the rest of the wrapper
    leaves the counters as [func] left them: one increment per call, made
    before the call, whether [func] returns or raises. *)
Theorem request_counter_incremented_first {A} (endpoint_name : string)
        (func : M A) (w : World) :
  let w1 := snd (wrapper_entry endpoint_name w) in
  counter_value REQUEST_COUNT ["POST"; endpoint_name] w1
  = S (counter_value REQUEST_COUNT ["POST"; endpoint_name] w)
  /\ delete (request_key endpoint_name) (counters w1)
     = delete (request_key endpoint_name) (counters w)
  /\ monitor_endpoint endpoint_name func w
     = try_finally (wrapper_try endpoint_name (now w) func)
                   (wrapper_finally (now w)) w1
  /\ counters (snd (monitor_endpoint endpoint_name func w))
     = counters (snd (func w1)).
Proof.
  intros w1. repeat split.
  - unfold w1. rewrite wrapper_entry_eq. cbn [snd].
    unfold counter_value at 1. cbn [counters set_counters].
    change (m_name REQUEST_COUNT, ["POST"; endpoint_name])
      with (request_key endpoint_name).
    rewrite lookup_insert_eq. reflexivity.
  - unfold w1. rewrite wrapper_entry_eq. cbn [snd counters set_counters].
    apply delete_insert_eq.
  - apply monitor_endpoint_eq.
  - rewrite monitor_endpoint_eq. fold w1. unfold try_finally.
    pose proof (wrapper_try_metrics endpoint_name (now w) func w1) as H.
    destruct (wrapper_try endpoint_name (now w) func w1) as [o w3].
    rewrite wrapper_finally_eq. cbn [snd] in *.
    unfold metrics_of in H. cbn. congruence.
Qed.

(** ** The wrapper: outcome and log calls *)

Lemma wrapper_try_success {A} (endpoint_name : string) (start_time : Q)
      (func : M A) (w1 w2 : World) (r : A) :
  func w1 = (Return r, w2) ->
  sink_raises INFO w2 = false ->
  wrapper_try endpoint_name start_time func w1
  = (Return r,
     snd (logger_info "API request completed"
            (lc_fields (success_call endpoint_name (now w2 - start_time)))
            (tick w2))).
Proof.
  intros Hf Hq.
  unfold wrapper_try, try_except, wrapper_body.
  cbv beta iota delta [mbind M_bind mret M_ret time_time].
  rewrite Hf. cbn [lc_fields success_call]. unfold logger_info.
  pose proof (keyword_call_returns INFO "API request completed"
                [ ("endpoint", VStr endpoint_name);
                  ("duration", VFloat (now w2 - start_time));
                  ("status", VStr "success") ] (tick w2) eq_refl Hq) as Hr.
  destruct (proxy_to_logger _ _ _ _) as [o w3]. cbn [fst snd] in *.
  rewrite Hr. reflexivity.
Qed.

Lemma wrapper_try_failure {A} (endpoint_name : string) (start_time : Q)
      (func : M A) (w1 w2 : World) (e : exn) :
  func w1 = (Raise e, w2) ->
  is_Exception e = true ->
  sink_raises ERROR w2 = false ->
  wrapper_try endpoint_name start_time func w1
  = (Raise e,
     snd (logger_error "API request failed"
            (lc_fields (error_call endpoint_name (now w2 - start_time) e))
            (tick w2))).
Proof.
  intros Hf He Hq.
  unfold wrapper_try, try_except, wrapper_body, wrapper_except.
  cbv beta iota delta [mbind M_bind mret M_ret time_time raise].
  rewrite Hf, He. cbn [lc_fields error_call]. unfold logger_error.
  pose proof (keyword_call_returns ERROR "API request failed"
                [ ("endpoint", VStr endpoint_name);
                  ("duration", VFloat (now w2 - start_time));
                  ("error", VStr (str_exn e));
                  ("status", VStr "error") ] (tick w2) eq_refl Hq) as Hr.
  destruct (proxy_to_logger _ _ _ _) as [o w3]. cbn [fst snd] in *.
  rewrite Hr. reflexivity.
Qed.

(** An exception that is no instance of [Exception] (a cancellation, an
    interrupt) passes the [except] clause: nothing is logged. *)
Lemma wrapper_try_base_exception {A} (endpoint_name : string)
      (start_time : Q) (func : M A) (w1 w2 : World) (e : exn) :
  func w1 = (Raise e, w2) ->
  is_Exception e = false ->
  wrapper_try endpoint_name start_time func w1 = (Raise e, w2).
Proof.
  intros Hf He. unfold wrapper_try, try_except, wrapper_body.
  cbv beta iota delta [mbind M_bind]. rewrite Hf, He. reflexivity.
Qed.

(** C5, as the code has it.  When [func] returns [r] and the success log
    call does not raise, the wrapper returns [r], and the only log call
    it makes is one [info] call with the fields endpoint, duration (the
    clock reading taken after [func] returned minus the reading taken on
    entry) and status "success". *)
Theorem success_returns_result_and_logs_once {A} (endpoint_name : string)
        (func : M A) (w w2 : World) (r : A) :
  func (snd (wrapper_entry endpoint_name w)) = (Return r, w2) ->
  sink_raises INFO w2 = false ->
  fst (monitor_endpoint endpoint_name func w) = Return r
  /\ emitted (snd (monitor_endpoint endpoint_name func w))
     = (emitted w2 ++ [success_call endpoint_name (now w2 - now w)])%list.
Proof.
  intros Hf Hq.
  destruct (monitor_endpoint_outcome endpoint_name func w) as [Ho He].
  rewrite Ho, He.
  rewrite (wrapper_try_success endpoint_name (now w) func _ w2 r Hf Hq).
  cbn [fst snd]. split; [reflexivity|].
  unfold logger_info.
  destruct (proxy_to_logger_frame INFO "API request completed"
              (lc_fields (success_call endpoint_name (now w2 - now w)))
              (tick w2)) as (_ & H & _).
  rewrite H. reflexivity.
Qed.

(** C2, as the code has it.  When [func] raises an instance [e] of
    [Exception] and the error log call does not raise, the wrapper raises
    [e] itself, and the only log call it makes is one [error] call with
    the fields endpoint, duration, error (the text of [e]) and status
    "error". *)
Theorem failure_logged_once_and_reraised {A} (endpoint_name : string)
        (func : M A) (w w2 : World) (e : exn) :
  func (snd (wrapper_entry endpoint_name w)) = (Raise e, w2) ->
  is_Exception e = true ->
  sink_raises ERROR w2 = false ->
  fst (monitor_endpoint endpoint_name func w) = Raise e
  /\ emitted (snd (monitor_endpoint endpoint_name func w))
     = (emitted w2 ++ [error_call endpoint_name (now w2 - now w) e])%list.
Proof.
  intros Hf Hexc Hq.
  destruct (monitor_endpoint_outcome endpoint_name func w) as [Ho He].
  rewrite Ho, He.
  rewrite (wrapper_try_failure endpoint_name (now w) func _ w2 e Hf Hexc Hq).
  cbn [fst snd]. split; [reflexivity|].
  unfold logger_error.
  destruct (proxy_to_logger_frame ERROR "API request failed"
              (lc_fields (error_call endpoint_name (now w2 - now w) e))
              (tick w2)) as (_ & H & _).
  rewrite H. reflexivity.
Qed.

(** C3, as the code has it.  The wrapper does not contain a failure of the
    log sink.  When [func] returns and the write of the success line
    raises [e1], the wrapper raises to its caller: [e1] itself, or, when
    [e1] is an [Exception] and the write of the error line that the
    [except] clause then makes raises [e2], that [e2]. *)
Theorem sink_failure_reaches_caller {A} (endpoint_name : string)
        (func : M A) (w w2 : World) (r : A) (e1 : exn)
        (rest : list (option exn)) :
  func (snd (wrapper_entry endpoint_name w)) = (Return r, w2) ->
  enabled INFO w2 = true ->
  sink_faults w2 = Some e1 :: rest ->
  fst (monitor_endpoint endpoint_name func w)
  = Raise (match rest with
           | Some e2 :: _ => if is_Exception e1 then e2 else e1
           | _ => e1
           end).
Proof.
  intros Hf Hen Hs.
  destruct (monitor_endpoint_outcome endpoint_name func w) as [Ho _].
  rewrite Ho. clear Ho.
  unfold wrapper_try, try_except, wrapper_body, wrapper_except,
    logger_info, logger_error.
  cbv beta iota delta [mbind M_bind mret M_ret time_time raise].
  rewrite Hf.
  destruct (keyword_call_raises INFO "API request completed"
              [ ("endpoint", VStr endpoint_name);
                ("duration", VFloat (now w2 - now w));
                ("status", VStr "success") ] (tick w2) e1 rest
              eq_refl Hen Hs) as [H1 H2].
  pose proof (proxy_to_logger_frame INFO "API request completed"
              [ ("endpoint", VStr endpoint_name);
                ("duration", VFloat (now w2 - now w));
                ("status", VStr "success") ] (tick w2)) as (_ & _ & Hl & _).
  destruct (proxy_to_logger INFO _ _ (tick w2)) as [o w3].
  cbn [fst snd] in *. subst o.
  destruct (is_Exception e1); [|destruct rest as [|[e2|] rest']; reflexivity].
  assert (Hen3 : enabled ERROR (tick w3) = true).
  { unfold enabled in *. cbn [log_level tick level_no] in *. rewrite Hl.
    apply Nat.leb_le in Hen. apply Nat.leb_le. lia. }
  pose proof (keyword_call_returns ERROR "API request failed"
              [ ("endpoint", VStr endpoint_name);
                ("duration", VFloat (now w3 - now w));
                ("error", VStr (str_exn e1));
                ("status", VStr "error") ] (tick w3) eq_refl) as Hret.
  pose proof (fun e2 rest' =>
              keyword_call_raises ERROR "API request failed"
              [ ("endpoint", VStr endpoint_name);
                ("duration", VFloat (now w3 - now w));
                ("error", VStr (str_exn e1));
                ("status", VStr "error") ] (tick w3) e2 rest'
              eq_refl Hen3) as Hraise.
  unfold sink_raises in Hret. rewrite Hen3 in Hret.
  cbn [sink_faults tick andb] in Hret, Hraise. rewrite H2 in Hret, Hraise.
  destruct (proxy_to_logger ERROR _ _ (tick w3)) as [o4 w4].
  cbn [fst snd] in *.
  destruct rest as [|[e2|] rest'].
  - rewrite Hret; reflexivity.
  - destruct (Hraise e2 rest' eq_refl) as [-> _]. reflexivity.
  - rewrite Hret; reflexivity.
Qed.

(** C9, as the code has it.  The value observed on the histogram is the
    difference of two readings of the wall clock, the one taken in the
    [finally] block minus the one taken on entry; it is non-negative when
    the clock did not go back between the two. *)
Theorem observed_duration_is_clock_difference {A} (endpoint_name : string)
        (func : M A) (w : World) :
  let w3 := snd (wrapper_try endpoint_name (now w) func
                   (snd (wrapper_entry endpoint_name w))) in
  (now w <= now w3)%Q ->
  last (observations REQUEST_DURATION
          (snd (monitor_endpoint endpoint_name func w)))
  = Some (now w3 - now w)%Q
  /\ (0 <= now w3 - now w)%Q.
Proof.
  intros w3 Hle. split.
  - pose proof (finally_observation endpoint_name func w) as H.
    cbv zeta in H. fold w3 in H. rewrite H. apply last_snoc.
  - unfold Qminus. apply Qle_minus_iff in Hle. exact Hle.
Qed.

(** ** The event recorders *)

(** C4, at the failing recorder.  [SENSOR_DATA_COUNT] is declared without
    label names, so the call of [labels] on line 69 raises [ValueError];
    [log_sensor_data] raises it on every input, before the increment and
    before the log call: the world is left as it was. *)
Theorem log_sensor_data_always_raises (device_id data_type : string)
        (w : World) :
  log_sensor_data device_id data_type w = (Raise NoLabelNames, w).
Proof. reflexivity. Qed.

Lemma count_prediction_then {B} (model_type : string) (k : M B) (w : World) :
  (c ← labels MODEL_PREDICTIONS [] [("model_type", model_type)]; inc c;; k) w
  = k (set_counters
         (<[prediction_key model_type :=
              S (counter_value MODEL_PREDICTIONS [model_type] w)]>
            (counters w)) w).
Proof.
  unfold labels, counter_value, prediction_key.
  cbn [MODEL_PREDICTIONS metric_object m_labelnames m_labelvalues m_name
       m_type m_documentation fmap list_fmap fst].
  rewrite bool_decide_eq_true_2 by reflexivity.
  cbv beta iota delta [mbind M_bind mret M_ret time_time metric_init inc].
  cbn. destruct (counters w !! _) as [n|] eqn:E; cbn.
  - rewrite E. reflexivity.
  - rewrite lookup_insert_eq. cbn. rewrite insert_insert_eq. reflexivity.
Qed.

(** X1.  The sibling recorder does what its contract says: when its log
    call does not raise, [log_ml_prediction] returns, the counter of the
    model type is one higher, and one [info] call was made with the fields
    model_type, confidence and timestamp. *)
Lemma log_ml_prediction_records (model_type : string) (confidence : Q)
      (w : World) :
  sink_raises INFO w = false ->
  fst (log_ml_prediction model_type confidence w) = Return tt
  /\ counters (snd (log_ml_prediction model_type confidence w))
     = <[prediction_key model_type :=
           S (counter_value MODEL_PREDICTIONS [model_type] w)]> (counters w)
  /\ emitted (snd (log_ml_prediction model_type confidence w))
     = (emitted w
        ++ [mkLogCall INFO "ML prediction made"
              [ ("model_type", VStr model_type);
                ("confidence", VFloat confidence);
                ("timestamp", VFloat (now w)) ]])%list.
Proof.
  intros Hq. unfold log_ml_prediction. rewrite count_prediction_then.
  cbv beta iota delta [mbind M_bind mret M_ret time_time].
  unfold logger_info.
  match goal with
  | |- context [proxy_to_logger ?m ?ev ?kw ?w0] =>
      pose proof (keyword_call_returns m ev kw w0 eq_refl Hq) as Hr;
      pose proof (proxy_to_logger_frame m ev kw w0) as (Hm & He & _);
      destruct (proxy_to_logger m ev kw w0) as [o w']
  end.
  cbn [fst snd] in *. unfold metrics_of in Hm.
  cbn [registry counters histograms set_counters tick emitted] in Hm, He.
  repeat split; [assumption| |assumption]. congruence.
Qed.

(** ** The health check *)

(** C10.  [health_check] never raises; its record holds the constants
    "healthy", "1.0.0" and "connected" for each of the three services,
    whatever the world; the timestamp is the clock reading, and without it
    the record is one fixed record. *)
Theorem health_check_is_constant (w : World) :
  exists record : PyDict,
    health_check w = (Return (VDict record), tick w)
    /\ dict_get "status" record = Some (VStr "healthy")
    /\ dict_get "version" record = Some (VStr "1.0.0")
    /\ dict_get "services" record
       = Some (VDict [ ("database", VStr "connected");
                       ("cache", VStr "connected");
                       ("external_apis", VStr "connected") ])
    /\ dict_get "timestamp" record = Some (VFloat (now w))
    /\ dict_del "timestamp" record
       = [ ("status", VStr "healthy");
           ("version", VStr "1.0.0");
           ("services",
            VDict [ ("database", VStr "connected");
                    ("cache", VStr "connected");
                    ("external_apis", VStr "connected") ]) ].
Proof. eexists. repeat split. Qed.

(** ** The metric registry *)

Lemma strip_suffix_spec (suf s p : string) :
  strip_suffix suf s = Some p -> s = p +:+ suf.
Proof.
  revert p. induction s as [|c s IH]; intros p H.
  - cbn in H. destruct suf; cbn in H; [|discriminate]. now simplify_eq.
  - change (strip_suffix suf (String c s))
      with (if String.eqb (String c s) suf then Some ""
            else String c <$> strip_suffix suf s) in H.
    destruct (String.eqb (String c s) suf) eqn:E.
    + simplify_eq. apply String.eqb_eq in E. exact E.
    + destruct (strip_suffix suf s) as [p'|]; [|discriminate].
      cbn in H. simplify_eq.
      change (String c s = String c (p' +:+ suf)). f_equal. now apply IH.
Qed.

(** The name a metric was declared with is among its time series. *)
Lemma declared_name_exposed (t : MetricType) (name documentation : string)
      (labelnames : list string) :
  name ∈ get_names (metric_object t name documentation labelnames).
Proof.
  unfold get_names, metric_object, build_full_name.
  cbn [m_name m_type]. destruct t; try apply list_elem_of_here.
  destruct (strip_suffix "_total" name) as [base|] eqn:E; cbn [default].
  - apply strip_suffix_spec in E. cbn [type_suffixes map from_option].
    rewrite E at 1. apply list_elem_of_further, list_elem_of_here.
  - apply list_elem_of_here.
Qed.

Lemma duplicated_true (names : list string) (w : World) (n : string) :
  n ∈ names -> n ∈ registry w -> duplicated names w = true.
Proof.
  intros Hn Hr. unfold duplicated. apply existsb_exists.
  exists n. split; [now apply list_elem_of_In|].
  now apply bool_decide_eq_true_2.
Qed.

Lemma new_metric_registered (t : MetricType) (name documentation : string)
      (labelnames : list string) (w w' : World) (m : Metric) :
  new_metric t name documentation labelnames w = (Return m, w') ->
  registry w'
  = list_to_set (get_names (metric_object t name documentation labelnames))
    ∪ registry w.
Proof.
  unfold new_metric, register, metric_init.
  cbv beta iota delta [mbind M_bind mret M_ret raise].
  intros H. repeat case_match; simplify_eq; reflexivity.
Qed.

(** C7, as the library has it.  Once a metric is registered under a name,
    every later definition under that name is rejected with a
    [ValueError], whatever its kind, help text and label names (the same
    ones included), and the world is left as it was. *)
Theorem redefinition_always_rejected (t t' : MetricType)
        (name documentation documentation' : string)
        (labelnames labelnames' : list string) (w w' : World) (m : Metric) :
  new_metric t name documentation labelnames w = (Return m, w') ->
  exists e : exn,
    new_metric t' name documentation' labelnames' w' = (Raise e, w')
    /\ exc_class e = ValueError.
Proof.
  intros H. apply new_metric_registered in H.
  unfold new_metric.
  destruct (valid_metric X _ _ labelnames'); [|eexists; split; reflexivity].
  exists DuplicatedTimeseries. split; [|reflexivity].
  cbv beta iota delta [mbind M_bind]. unfold register.
  rewrite (duplicated_true _ w' name); [reflexivity| |].
  - apply declared_name_exposed.
  - rewrite H. apply elem_of_union_l, elem_of_list_to_set.
    apply declared_name_exposed.
Qed.

(** ** The logging pipeline *)


(** ** What a rendered event holds *)

Lemma dict_get_del_ne (k k' : string) (d : PyDict) :
  String.eqb k k' = false -> dict_get k (dict_del k' d) = dict_get k d.
Proof.
  intros Hne. induction d as [|[k0 v0] d IH]; cbn; [reflexivity|].
  destruct (String.eqb k' k0) eqn:E0.
  - apply String.eqb_eq in E0; subst k0. now rewrite Hne.
  - cbn. now rewrite IH.
Qed.

Lemma dict_get_decoded (k : string) (d : PyDict) :
  dict_get k (run_UnicodeDecoder d) = decode_value <$> dict_get k d.
Proof.
  unfold run_UnicodeDecoder.
  induction d as [|[k0 v0] d IH]; cbn; [reflexivity|].
  destruct (String.eqb k k0); [reflexivity|exact IH].
Qed.

Lemma stack_renderer_other (k : string) (d : PyDict) :
  String.eqb k "stack_info" = false -> String.eqb k "stack" = false ->
  dict_get k (run_StackInfoRenderer d) = dict_get k d.
Proof.
  intros H1 H2. unfold run_StackInfoRenderer.
  destruct (dict_get "stack_info" d) as [v|]; [|reflexivity].
  destruct (truthy v); rewrite ?dict_get_set, ?H2;
    now apply dict_get_del_ne.
Qed.

Lemma exc_renderer_other (k : string) (d : PyDict) :
  String.eqb k "exc_info" = false -> String.eqb k "exception" = false ->
  dict_get k (run_format_exc_info d) = dict_get k d.
Proof.
  intros H1 H2. unfold run_format_exc_info.
  destruct (dict_get "exc_info" d) as [v|]; [|reflexivity].
  destruct (truthy v); [destruct (format_exception X v)|];
    rewrite ?dict_get_set, ?H2; now apply dict_get_del_ne.
Qed.

Lemma final_event_get (k : string) (t : Q) (d : PyDict) :
  String.eqb k "stack_info" = false -> String.eqb k "stack" = false ->
  String.eqb k "exc_info" = false -> String.eqb k "exception" = false ->
  dict_get k (final_event t d)
  = decode_value <$> dict_get k (run_TimeStamper t d).
Proof.
  intros H1 H2 H3 H4. unfold final_event.
  rewrite dict_get_decoded, exc_renderer_other, stack_renderer_other
    by assumption.
  reflexivity.
Qed.

(** Keywords are distinct: the dict built from them holds, under each key,
    the value passed under it. *)
Lemma dict_get_absent (k : string) (kw : PyDict) :
  k ∉ kw.*1 -> dict_get k kw = None.
Proof.
  induction kw as [|[k0 v0] kw IH]; cbn; [reflexivity|].
  intros Hn. apply not_elem_of_cons in Hn as [Hne Hn].
  destruct (String.eqb k k0) eqn:E; [|now apply IH].
  apply String.eqb_eq in E. contradiction.
Qed.

Lemma dict_update_get (k : string) (kw d : PyDict) :
  NoDup kw.*1 ->
  dict_get k (dict_update d kw)
  = match dict_get k kw with Some v => Some v | None => dict_get k d end.
Proof.
  unfold dict_update. revert d.
  induction kw as [|[k0 v0] kw IH]; intros d Hnd; cbn; [reflexivity|].
  apply NoDup_cons in Hnd as [Hn0 Hnd].
  change (fold_left _ kw (dict_set k0 v0 d))
    with (fold_left (fun acc kv => dict_set (fst kv) (snd kv) acc) kw
            (dict_set k0 v0 d)).
  rewrite IH by assumption. rewrite dict_get_set.
  destruct (String.eqb k k0) eqn:E; [|reflexivity].
  apply String.eqb_eq in E; subst k0.
  now rewrite dict_get_absent.
Qed.

Lemma keyword_event_rendered (m : LogMethod) (event : string) (kw : PyDict)
      (w : World) :
  dict_get "positional_args" kw = None ->
  enabled m w = true ->
  process_event m event kw w
  = (Return (VStr (run_JSONRenderer (rendered_event m event kw (now w)))),
     tick w).
Proof.
  intros Hkw Hen. rewrite process_event_eq, Hen.
  rewrite keyword_only_formatter by assumption. reflexivity.
Qed.

(** X3.  A rendered event carries the event text under [event], and under
    [logger], [level] and [timestamp] what the pipeline puts there: a
    keyword the caller passes under one of these three names is
    overwritten.  The [timestamp] that the two event recorders pass is
    such a keyword: the float they read never reaches the sink. *)
Theorem pipeline_keys_overwritten (m : LogMethod) (event : string)
        (kw : PyDict) (w : World) :
  dict_get "positional_args" kw = None ->
  enabled m w = true ->
  let ev := rendered_event m event kw (now w) in
  process_event m event kw w = (Return (VStr (run_JSONRenderer ev)), tick w)
  /\ dict_get "event" ev = Some (VStr event)
  /\ dict_get "logger" ev = Some (VStr (logger_name X))
  /\ dict_get "level" ev = Some (VStr (method_name m))
  /\ dict_get "timestamp" ev = Some (VStr (iso_format X (now w))).
Proof.
  intros Hkw Hen ev. split; [now apply keyword_event_rendered|].
  unfold ev, rendered_event, enriched, run_add_log_level,
    run_add_logger_name, initial_event.
  repeat split; rewrite final_event_get by reflexivity;
    unfold run_TimeStamper; rewrite !dict_get_set; reflexivity.
Qed.

(** X4.  Every other keyword reaches the rendered event under its key, with its
    value, a bytes value decoded to text. *)
Theorem caller_fields_rendered (m : LogMethod) (event : string)
        (kw : PyDict) (w : World) (k : string) :
  dict_get "positional_args" kw = None ->
  enabled m w = true ->
  NoDup kw.*1 ->
  k ∉ pipeline_keys ->
  let ev := rendered_event m event kw (now w) in
  process_event m event kw w = (Return (VStr (run_JSONRenderer ev)), tick w)
  /\ dict_get k ev = decode_value <$> dict_get k kw.
Proof.
  intros Hkw Hen Hnd Hk ev. split; [now apply keyword_event_rendered|].
  assert (Hne : forall k', k' ∈ pipeline_keys -> String.eqb k k' = false).
  { intros k' Hk'. apply String.eqb_neq. intros ->. contradiction. }
  unfold ev, rendered_event, enriched, run_add_log_level,
    run_add_logger_name, initial_event, pipeline_keys in *.
  rewrite final_event_get by (apply Hne; set_solver).
  unfold run_TimeStamper. rewrite !dict_get_set.
  rewrite !Hne by set_solver.
  rewrite dict_update_get by assumption.
  destruct (dict_get k kw); reflexivity.
Qed.

(** ** More on the wrapper *)

Lemma keyword_call_clock (m : LogMethod) (event : string) (kw : PyDict)
      (w : World) :
  dict_get "positional_args" kw = None ->
  clock (snd (proxy_to_logger m event kw w)) = clock w
  /\ ticks (snd (proxy_to_logger m event kw w))
     = if enabled m w then S (S (ticks w)) else ticks w.
Proof.
  intros H. rewrite keyword_call by assumption.
  destruct (enabled m w); [|split; reflexivity].
  match goal with
  | |- context [sink_write ?l ?w0] =>
      destruct (sink_write_frame l w0) as (_ & _ & _ & -> & ->)
  end.
  split; reflexivity.
Qed.

Lemma keyword_call_sink (m : LogMethod) (event : string) (kw : PyDict)
      (w : World) :
  dict_get "positional_args" kw = None ->
  (sink (snd (proxy_to_logger m event kw w)),
   sink_faults (snd (proxy_to_logger m event kw w)))
  = if enabled m w then
      match sink_faults w with
      | Some e :: rest => (sink w, rest)
      | None :: rest =>
          ((sink w ++ [run_JSONRenderer (rendered_event m event kw (now w))])
             %list, rest)
      | [] =>
          ((sink w ++ [run_JSONRenderer (rendered_event m event kw (now w))])
             %list, [])
      end
    else (sink w, sink_faults w).
Proof.
  intros H. rewrite keyword_call by assumption.
  destruct (enabled m w); [|reflexivity].
  unfold sink_write. cbn [sink_faults tick set_emitted sink].
  destruct (sink_faults w) as [|[e|] rest]; reflexivity.
Qed.

(** The [finally] block touches the histogram and the clock only. *)
Lemma monitor_endpoint_sink {A} (endpoint_name : string) (func : M A)
      (w : World) :
  sink (snd (monitor_endpoint endpoint_name func w))
  = sink (snd (wrapper_try endpoint_name (now w) func
                 (snd (wrapper_entry endpoint_name w))))
  /\ sink_faults (snd (monitor_endpoint endpoint_name func w))
     = sink_faults (snd (wrapper_try endpoint_name (now w) func
                           (snd (wrapper_entry endpoint_name w)))).
Proof.
  rewrite monitor_endpoint_eq. unfold try_finally.
  destruct (wrapper_try _ _ _ _) as [o w3].
  rewrite wrapper_finally_eq. cbn. auto.
Qed.

(** X5.  An exit of [func] by an exception that is no [Exception] (a cancelled
    request, an interrupt) reaches the caller as it is and is not logged:
    the world [func] left gets the observation of the [finally] block and
    its clock reading, nothing else. *)
Theorem base_exception_passes_unlogged {A} (endpoint_name : string)
        (func : M A) (w w2 : World) (e : exn) :
  func (snd (wrapper_entry endpoint_name w)) = (Raise e, w2) ->
  is_Exception e = false ->
  monitor_endpoint endpoint_name func w
  = (Raise e,
     set_histograms
       (<[store_key REQUEST_DURATION :=
            (observations REQUEST_DURATION w2 ++ [(now w2 - now w)%Q])%list]>
          (histograms w2))
       (tick w2)).
Proof.
  intros Hf He. rewrite monitor_endpoint_eq. unfold try_finally.
  rewrite (wrapper_try_base_exception endpoint_name (now w) func _ w2 e Hf He).
  rewrite wrapper_finally_eq. reflexivity.
Qed.

(** X6.  When [func] raises an [Exception] and the write of the error line
    raises in turn, the caller gets the failure of the sink, not the one
    of [func]; the error call was made, no line was written. *)
Theorem error_log_failure_replaces_original {A} (endpoint_name : string)
        (func : M A) (w w2 : World) (e e2 : exn)
        (rest : list (option exn)) :
  func (snd (wrapper_entry endpoint_name w)) = (Raise e, w2) ->
  is_Exception e = true ->
  enabled ERROR w2 = true ->
  sink_faults w2 = Some e2 :: rest ->
  fst (monitor_endpoint endpoint_name func w) = Raise e2
  /\ emitted (snd (monitor_endpoint endpoint_name func w))
     = (emitted w2 ++ [error_call endpoint_name (now w2 - now w) e])%list
  /\ sink (snd (monitor_endpoint endpoint_name func w)) = sink w2.
Proof.
  intros Hf He Hen Hs.
  destruct (monitor_endpoint_outcome endpoint_name func w) as [-> ->].
  destruct (monitor_endpoint_sink endpoint_name func w) as [-> _].
  unfold wrapper_try, try_except, wrapper_body, wrapper_except, logger_error.
  cbv beta iota delta [mbind M_bind mret M_ret time_time raise].
  rewrite Hf, He.
  match goal with
  | |- context [proxy_to_logger ?m ?ev ?kw ?w0] =>
      destruct (keyword_call_raises m ev kw w0 e2 rest eq_refl Hen Hs)
        as [Hr _];
      pose proof (proxy_to_logger_frame m ev kw w0) as (_ & Hem & _);
      pose proof (keyword_call_sink m ev kw w0 eq_refl) as Hsk;
      destruct (proxy_to_logger m ev kw w0) as [o w3]
  end.
  cbn [fst snd] in *. subst o.
  change (enabled ERROR (tick w2)) with (enabled ERROR w2) in Hsk.
  rewrite Hen in Hsk. cbn [sink_faults tick sink] in Hsk. rewrite Hs in Hsk.
  cbn [fst snd]. repeat split; [exact Hem|congruence].
Qed.

(** X7.  When [func] returns and the write of the success line raises an
    [Exception], the request is reported as failed: the wrapper makes a
    second log call, an error call whose error text is that of the sink's
    exception and whose duration comes from a later reading of the
    clock. *)
Theorem unwritten_success_reported_as_failure {A} (endpoint_name : string)
        (func : M A) (w w2 : World) (r : A) (e1 : exn)
        (rest : list (option exn)) :
  func (snd (wrapper_entry endpoint_name w)) = (Return r, w2) ->
  enabled INFO w2 = true ->
  sink_faults w2 = Some e1 :: rest ->
  is_Exception e1 = true ->
  exists later : nat,
    0 < later
    /\ emitted (snd (monitor_endpoint endpoint_name func w))
       = (emitted w2
          ++ [ success_call endpoint_name (clock w2 (ticks w2) - now w);
               error_call endpoint_name
                 (clock w2 (later + ticks w2) - now w) e1 ])%list.
Proof.
  intros Hf Hen Hs He1. exists 3. split; [lia|].
  destruct (monitor_endpoint_outcome endpoint_name func w) as [_ ->].
  unfold wrapper_try, try_except, wrapper_body, wrapper_except,
    logger_info, logger_error.
  cbv beta iota delta [mbind M_bind mret M_ret time_time raise].
  rewrite Hf.
  match goal with
  | |- context [proxy_to_logger ?m ?ev ?kw ?w0] =>
      destruct (keyword_call_raises m ev kw w0 e1 rest eq_refl Hen Hs)
        as [Hr _];
      pose proof (proxy_to_logger_frame m ev kw w0) as (_ & Hem & _);
      destruct (keyword_call_clock m ev kw w0 eq_refl) as [Hc Ht];
      destruct (proxy_to_logger m ev kw w0) as [o w3]
  end.
  cbn [fst snd] in *. subst o. rewrite He1.
  change (enabled INFO (tick w2)) with (enabled INFO w2) in Ht.
  rewrite Hen in Ht. cbn [ticks clock tick emitted] in Hc, Ht, Hem.
  match goal with
  | |- context [proxy_to_logger ?m ?ev ?kw ?w0] =>
      pose proof (proxy_to_logger_frame m ev kw w0) as (_ & Hem' & _);
      destruct (proxy_to_logger m ev kw w0) as [[[]|e'] w4]
  end; cbn [fst snd emitted tick] in *; rewrite Hem', Hem;
    unfold now; rewrite Hc, Ht, <- app_assoc; reflexivity.
Qed.

(** X8.  Whatever [func] and the sink do, the wrapper makes no log call, one
    [info] call, one [error] call, or an [info] call followed by an
    [error] call, after the calls [func] made. *)
Theorem at_most_two_log_calls {A} (endpoint_name : string) (func : M A)
        (w : World) :
  exists calls : list LogCall,
    emitted (snd (monitor_endpoint endpoint_name func w))
    = (emitted (snd (func (snd (wrapper_entry endpoint_name w)))) ++ calls)
        %list
    /\ map lc_method calls ∈ [ []; [INFO]; [ERROR]; [INFO; ERROR] ].
Proof.
  destruct (monitor_endpoint_outcome endpoint_name func w) as [_ ->].
  unfold wrapper_try, try_except, wrapper_body, wrapper_except,
    logger_info, logger_error.
  cbv beta iota delta [mbind M_bind mret M_ret time_time raise].
  assert (Hin : forall l : list LogMethod,
             In l [ []; [INFO]; [ERROR]; [INFO; ERROR] ] ->
             l ∈ [ []; [INFO]; [ERROR]; [INFO; ERROR] ])
    by (intros l; apply list_elem_of_In).
  destruct (func _) as [[r|e] w2]; cbn [fst snd].
  - log_step.
    + eexists [_]. split; [eassumption|]. apply Hin. cbn. auto.
    + destruct (is_Exception _).
      * log_step; cbn [snd];
          (eexists [_; _]; split;
           [etransitivity; [eassumption|];
            match goal with H : emitted _ = _ |- _ => cbn in H; rewrite H end;
            rewrite <- app_assoc; reflexivity
           |apply Hin; cbn; auto]).
      * eexists [_]. split; [eassumption|]. apply Hin. cbn. auto.
  - destruct (is_Exception e).
    + log_step; (eexists [_]; split; [eassumption|apply Hin; cbn; auto]).
    + exists []. split; [now rewrite app_nil_r|apply Hin; cbn; auto].
Qed.

(** X9.  With the level of the stdlib logger above [INFO] (its default is
    [WARNING]), the success record of a request never reaches the sink,
    and cannot fail either: the call is made and dropped, the result is
    returned, and a broken sink is not even touched. *)
Theorem success_record_dropped_below_level {A} (endpoint_name : string)
        (func : M A) (w w2 : World) (r : A) :
  func (snd (wrapper_entry endpoint_name w)) = (Return r, w2) ->
  enabled INFO w2 = false ->
  fst (monitor_endpoint endpoint_name func w) = Return r
  /\ emitted (snd (monitor_endpoint endpoint_name func w))
     = (emitted w2 ++ [success_call endpoint_name (now w2 - now w)])%list
  /\ sink (snd (monitor_endpoint endpoint_name func w)) = sink w2
  /\ sink_faults (snd (monitor_endpoint endpoint_name func w))
     = sink_faults w2.
Proof.
  intros Hf Hen.
  assert (Hq : sink_raises INFO w2 = false)
    by (unfold sink_raises; now rewrite Hen).
  destruct (monitor_endpoint_outcome endpoint_name func w) as [-> ->].
  destruct (monitor_endpoint_sink endpoint_name func w) as [-> ->].
  rewrite (wrapper_try_success endpoint_name (now w) func _ w2 r Hf Hq).
  cbn [fst snd]. unfold logger_info.
  match goal with
  | |- context [proxy_to_logger ?m ?ev ?kw ?w0] =>
      pose proof (proxy_to_logger_frame m ev kw w0) as (_ & Hem & _);
      pose proof (keyword_call_sink m ev kw w0 eq_refl) as Hsk
  end.
  change (enabled INFO (tick w2)) with (enabled INFO w2) in Hsk.
  rewrite Hen in Hsk. injection Hsk as Hs1 Hs2.
  repeat split; assumption.
Qed.

(** X10.  With [INFO] enabled and a sink that takes the line, the success of a
    request writes exactly one line: the JSON object of the fields
    endpoint, duration, status, event, logger, level and timestamp, in
    this order. *)
Theorem success_line_written {A} (endpoint_name : string) (func : M A)
        (w w2 : World) (r : A) :
  func (snd (wrapper_entry endpoint_name w)) = (Return r, w2) ->
  enabled INFO w2 = true ->
  sink_raises INFO w2 = false ->
  sink (snd (monitor_endpoint endpoint_name func w))
  = (sink w2
     ++ [ json_dumps
            (VDict
               [ ("endpoint", VStr endpoint_name);
                 ("duration", VFloat (now w2 - now w));
                 ("status", VStr "success");
                 ("event", VStr "API request completed");
                 ("logger", VStr (logger_name X));
                 ("level", VStr "info");
                 ("timestamp",
                  VStr (iso_format X (clock w2 (S (ticks w2))))) ]) ])%list.
Proof.
  intros Hf Hen Hq.
  destruct (monitor_endpoint_sink endpoint_name func w) as [-> _].
  rewrite (wrapper_try_success endpoint_name (now w) func _ w2 r Hf Hq).
  cbn [fst snd lc_fields success_call]. unfold logger_info.
  match goal with
  | |- context [proxy_to_logger ?m ?ev ?kw ?w0] =>
      pose proof (keyword_call_sink m ev kw w0 eq_refl) as Hsk
  end.
  change (enabled INFO (tick w2)) with (enabled INFO w2) in Hsk.
  rewrite Hen in Hsk. unfold sink_raises in Hq. rewrite Hen in Hq.
  cbn [sink_faults tick sink andb] in Hsk, Hq.
  destruct (sink_faults w2) as [|[e|] rest]; [|discriminate|];
    injection Hsk as Hs1 _; rewrite Hs1; reflexivity.
Qed.

(** X11.  The duration in the success record and the one on the histogram
    come from two readings of the clock, the histogram's a later one; when
    the clock of the world [func] left never goes back, the logged
    duration is at most the observed one. *)
Theorem logged_duration_at_most_observed {A} (endpoint_name : string)
        (func : M A) (w w2 : World) (r : A) :
  func (snd (wrapper_entry endpoint_name w)) = (Return r, w2) ->
  sink_raises INFO w2 = false ->
  clock_monotone w2 ->
  exists later : nat,
    0 < later
    /\ last (emitted (snd (monitor_endpoint endpoint_name func w)))
       = Some (success_call endpoint_name (clock w2 (ticks w2) - now w))
    /\ last (observations REQUEST_DURATION
               (snd (monitor_endpoint endpoint_name func w)))
       = Some (clock w2 (later + ticks w2) - now w)%Q
    /\ (clock w2 (ticks w2) - now w
        <= clock w2 (later + ticks w2) - now w)%Q.
Proof.
  intros Hf Hq Hmono.
  exists (if enabled INFO w2 then 3 else 1).
  split; [destruct (enabled INFO w2); lia|].
  destruct (monitor_endpoint_outcome endpoint_name func w) as [_ ->].
  pose proof (finally_observation endpoint_name func w) as Hobs.
  cbv zeta in Hobs. rewrite Hobs. clear Hobs.
  rewrite (wrapper_try_success endpoint_name (now w) func _ w2 r Hf Hq).
  cbn [fst snd lc_fields success_call]. unfold logger_info.
  match goal with
  | |- context [proxy_to_logger ?m ?ev ?kw ?w0] =>
      pose proof (proxy_to_logger_frame m ev kw w0) as (_ & Hem & _);
      destruct (keyword_call_clock m ev kw w0 eq_refl) as [Hc Ht]
  end.
  change (enabled INFO (tick w2)) with (enabled INFO w2) in Ht.
  cbn [emitted clock ticks tick] in Hem, Hc, Ht.
  rewrite Hem, !last_snoc.
  split; [reflexivity|].
  match goal with
  | |- context [now (snd ?p)] =>
      change (now (snd p)) with (clock (snd p) (ticks (snd p)))
  end.
  rewrite Hc, Ht.
  assert (Hl : (if enabled INFO w2 then S (S (S (ticks w2)))
                else S (ticks w2))
               = (if enabled INFO w2 then 3 else 1) + ticks w2)
    by (destruct (enabled INFO w2); reflexivity).
  rewrite Hl. split; [reflexivity|].
  unfold Qminus. apply Qplus_le_compat; [|apply Qle_refl].
  apply Hmono. lia.
Qed.

(** X12.  The request counter counts attempts and the histogram counts exits,
    in step: after [n] calls in a row of a function that leaves the
    metrics alone, the counter of the endpoint (method "POST") is [n]
    higher, the histogram holds [n] more observations, and no other
    counter has moved, whatever the exits were. *)
Theorem attempts_and_exits_in_step {A} (endpoint_name : string)
        (func : M A) (n : nat) (w : World) :
  (forall w0 : World, metrics_of (snd (func w0)) = metrics_of w0) ->
  counter_value REQUEST_COUNT ["POST"; endpoint_name]
    (after_calls endpoint_name func n w)
  = n + counter_value REQUEST_COUNT ["POST"; endpoint_name] w
  /\ length (observations REQUEST_DURATION (after_calls endpoint_name func n w))
     = n + length (observations REQUEST_DURATION w)
  /\ delete (request_key endpoint_name)
       (counters (after_calls endpoint_name func n w))
     = delete (request_key endpoint_name) (counters w).
Proof.
  intros Hfunc. induction n as [|n (IH1 & IH2 & IH3)]; [auto|].
  unfold after_calls in *. rewrite !Nat.iter_succ.
  set (wn := Nat.iter n _ w) in *.
  pose proof (finally_observation endpoint_name func wn) as Hobs.
  cbv zeta in Hobs.
  pose proof (wrapper_try_metrics endpoint_name (now wn) func
                (snd (wrapper_entry endpoint_name wn))) as Htry.
  rewrite Hfunc, wrapper_entry_eq in Htry. cbn [snd] in Htry.
  unfold metrics_of in Htry.
  cbn [registry counters histograms set_counters tick] in Htry.
  injection Htry as Hreg Hcnt Hhist.
  assert (Hfin : counters (snd (monitor_endpoint endpoint_name func wn))
                 = counters (snd (wrapper_try endpoint_name (now wn) func
                                    (snd (wrapper_entry endpoint_name wn))))).
  { rewrite monitor_endpoint_eq. unfold try_finally.
    destruct (wrapper_try _ _ _ _) as [o w3].
    rewrite wrapper_finally_eq. reflexivity. }
  repeat split.
  - unfold counter_value at 1. rewrite Hfin, wrapper_entry_eq. cbn [snd].
    rewrite Hcnt.
    change (m_name REQUEST_COUNT, ["POST"; endpoint_name])
      with (request_key endpoint_name).
    rewrite lookup_insert_eq. cbn. rewrite IH1. reflexivity.
  - rewrite Hobs, length_app. cbn [length].
    unfold observations at 1. rewrite wrapper_entry_eq. cbn [snd].
    rewrite Hhist. fold (observations REQUEST_DURATION wn). lia.
  - rewrite Hfin, wrapper_entry_eq. cbn [snd]. rewrite Hcnt.
    rewrite delete_insert_eq. exact IH3.
Qed.

(** ** More on the recorders and the module *)

(** X2.  [log_ml_prediction] counts the prediction before it logs it: the
    counter of the model type is one higher whatever the log call does
    (return, drop the record, or raise), a model type not seen before adds
    one time series to the store, and no other series moves. *)
Theorem prediction_counted_before_logged (model_type : string)
        (confidence : Q) (w : World) :
  let w' := snd (log_ml_prediction model_type confidence w) in
  counters w'
  = <[prediction_key model_type :=
        S (counter_value MODEL_PREDICTIONS [model_type] w)]> (counters w)
  /\ size (counters w')
     = match counters w !! prediction_key model_type with
       | Some _ => size (counters w)
       | None => S (size (counters w))
       end
  /\ histograms w' = histograms w.
Proof.
  intros w'. unfold w', log_ml_prediction. rewrite count_prediction_then.
  cbv beta iota delta [mbind M_bind mret M_ret time_time].
  unfold logger_info.
  match goal with
  | |- context [proxy_to_logger ?m ?ev ?kw ?w0] =>
      pose proof (proxy_to_logger_frame m ev kw w0) as (Hm & _);
      destruct (proxy_to_logger m ev kw w0) as [o w'']
  end.
  cbn [fst snd] in *. unfold metrics_of in Hm.
  cbn [registry counters histograms set_counters tick] in Hm.
  injection Hm as _ Hc Hh. rewrite Hc, Hh.
  repeat split. rewrite map_size_insert.
  destruct (counters w !! prediction_key model_type); reflexivity.
Qed.

(** X13.  [start_metrics_server] logs the start after the server has started: a
    failure to start (a port in use) reaches the caller and no log call is
    made; after a start, one [info] call is made whose event text names
    the port, 9090 when none was given, and only a failing sink makes the
    call raise. *)
Theorem metrics_server_logged_after_start (port : option Z) (w : World) :
  let p := default 9090%Z port in
  match start_http_server p w with
  | (Raise e, w') => start_metrics_server port w = (Raise e, w')
  | (Return _, w') =>
      emitted (snd (start_metrics_server port w))
      = (emitted w'
         ++ [mkLogCall INFO ("Metrics server started on port " +:+ pretty p)
               []])%list
      /\ metrics_of (snd (start_metrics_server port w)) = metrics_of w'
      /\ fst (start_metrics_server port w)
         = match sink_faults w' with
           | Some e :: _ => if enabled INFO w' then Raise e else Return tt
           | _ => Return tt
           end
  end.
Proof.
  intros p. unfold start_metrics_server. fold p.
  cbv beta iota delta [mbind M_bind].
  destruct (start_http_server p w) as [[[]|e] w']; [|reflexivity].
  unfold logger_info.
  match goal with
  | |- context [proxy_to_logger ?m ?ev ?kw ?w0] =>
      pose proof (proxy_to_logger_frame m ev kw w0) as (Hm & Hem & _);
      pose proof (keyword_call_returns m ev kw w0 eq_refl) as Hret;
      pose proof (fun e rest =>
                    keyword_call_raises m ev kw w0 e rest eq_refl) as Hraise
  end.
  repeat split; [exact Hem|exact Hm|].
  unfold sink_raises in Hret.
  destruct (sink_faults w') as [|[e|] rest].
  - apply Hret, andb_false_r.
  - destruct (enabled INFO w').
    + now destruct (Hraise e rest eq_refl eq_refl).
    + now apply Hret.
  - apply Hret, andb_false_r.
Qed.

Lemma duplicated_app (l1 l2 : list string) (w : World) :
  duplicated (l1 ++ l2) w = duplicated l1 w || duplicated l2 w.
Proof. unfold duplicated. apply existsb_app. Qed.

Lemma duplicated_after (names taken : list string) (w w' : World) :
  registry w' = list_to_set taken ∪ registry w ->
  duplicated names w'
  = existsb (fun n => bool_decide (n ∈ taken)) names || duplicated names w.
Proof.
  intros Hr. unfold duplicated. rewrite Hr.
  induction names as [|n names IH]; [reflexivity|]. cbn. rewrite IH.
  assert (Hn : bool_decide
                 (n ∈ (list_to_set taken ∪ registry w : gset string))
               = bool_decide (n ∈ taken) || bool_decide (n ∈ registry w)).
  { apply eq_true_iff_eq.
    rewrite orb_true_iff, !bool_decide_eq_true.
    rewrite elem_of_union, elem_of_list_to_set. reflexivity. }
  rewrite Hn.
  destruct (bool_decide (n ∈ taken)), (bool_decide (n ∈ registry w)),
    (existsb (fun n0 => bool_decide (n0 ∈ taken)) names); reflexivity.
Qed.

Lemma new_metric_fresh (t : MetricType) (name documentation : string)
      (labelnames : list string) (w : World) :
  valid_metric X t (build_full_name t name) labelnames = true ->
  duplicated (get_names (metric_object t name documentation labelnames)) w
  = false ->
  exists w',
    new_metric t name documentation labelnames w
    = (Return (metric_object t name documentation labelnames), w')
    /\ registry w'
       = list_to_set (get_names
                        (metric_object t name documentation labelnames))
         ∪ registry w.
Proof.
  intros Hv Hd. unfold new_metric, register, metric_init.
  cbv beta iota delta [mbind M_bind mret M_ret raise].
  cbn [m_name metric_object]. rewrite Hv, Hd.
  repeat case_match; simplify_eq; eexists; split; reflexivity.
Qed.

(** X14.  On a registry where none of the module's fifteen time-series names is
    taken, the five declarations of lines 8 to 12 all register, and the
    registry gains exactly these names. *)
Theorem import_registers_series (w : World) :
  module_names_valid = true ->
  duplicated module_series w = false ->
  fst (define_metrics w) = Return tt
  /\ registry (snd (define_metrics w))
     = list_to_set module_series ∪ registry w.
Proof.
  unfold module_names_valid, module_series.
  rewrite !andb_true_iff, !duplicated_app, !orb_false_iff.
  intros ((((V1 & V2) & V3) & V4) & V5) (D1 & D2 & D3 & D4 & D5).
  unfold define_metrics, Counter, Histogram, Gauge.
  cbv beta iota delta [mbind M_bind mret M_ret].
  destruct (new_metric_fresh counter "agriassist_requests_total"
              "Total requests" ["method"; "endpoint"] w V1 D1)
    as (w1 & -> & R1).
  destruct (new_metric_fresh histogram "agriassist_request_duration_seconds"
              "Request duration" [] w1 V2) as (w2 & -> & R2).
  { rewrite (duplicated_after _ _ w w1 R1).
    apply orb_false_iff. split; [vm_compute; reflexivity|exact D2]. }
  destruct (new_metric_fresh gauge "agriassist_active_connections"
              "Active connections" [] w2 V3) as (w3 & -> & R3).
  { rewrite (duplicated_after _ _ w1 w2 R2), (duplicated_after _ _ w w1 R1).
    rewrite !orb_false_iff.
    repeat split; [vm_compute; reflexivity..|exact D3]. }
  destruct (new_metric_fresh counter "agriassist_sensor_data_total"
              "Total sensor data points" [] w3 V4) as (w4 & -> & R4).
  { rewrite (duplicated_after _ _ w2 w3 R3), (duplicated_after _ _ w1 w2 R2),
      (duplicated_after _ _ w w1 R1).
    rewrite !orb_false_iff.
    repeat split; [vm_compute; reflexivity..|exact D4]. }
  destruct (new_metric_fresh counter "agriassist_model_predictions_total"
              "ML model predictions" ["model_type"] w4 V5) as (w5 & -> & R5).
  { rewrite (duplicated_after _ _ w3 w4 R4), (duplicated_after _ _ w2 w3 R3),
      (duplicated_after _ _ w1 w2 R2), (duplicated_after _ _ w w1 R1).
    rewrite !orb_false_iff.
    repeat split; [vm_compute; reflexivity..|exact D5]. }
  cbn [fst snd]. split; [reflexivity|].
  rewrite R5, R4, R3, R2, R1. rewrite !list_to_set_app_L.
  fold REQUEST_COUNT REQUEST_DURATION ACTIVE_CONNECTIONS SENSOR_DATA_COUNT
    MODEL_PREDICTIONS.
  generalize (list_to_set (get_names REQUEST_COUNT) : gset string),
    (list_to_set (get_names REQUEST_DURATION) : gset string),
    (list_to_set (get_names ACTIVE_CONNECTIONS) : gset string),
    (list_to_set (get_names SENSOR_DATA_COUNT) : gset string),
    (list_to_set (get_names MODEL_PREDICTIONS) : gset string), (registry w).
  clear. intros N1 N2 N3 N4 N5 R.
  apply set_eq. intros x. rewrite !elem_of_union. tauto.
Qed.

(** X15.  The declarations cannot run twice on one registry (the module imported
    a second time, under another name): after a run that registered them,
    a second run raises [ValueError] at the first declaration and changes
    nothing. *)
Theorem second_import_raises (w w' : World) :
  define_metrics w = (Return tt, w') ->
  exists e : exn,
    define_metrics w' = (Raise e, w') /\ exc_class e = ValueError.
Proof.
  unfold define_metrics at 1, Counter, Histogram, Gauge.
  cbv beta iota delta [mbind M_bind mret M_ret].
  destruct (new_metric counter "agriassist_requests_total" _ _ w)
    as [[m1|e1] w1] eqn:E1; [|discriminate].
  destruct (new_metric histogram _ _ _ w1) as [[m2|e2] w2] eqn:E2;
    [|discriminate].
  destruct (new_metric gauge _ _ _ w2) as [[m3|e3] w3] eqn:E3;
    [|discriminate].
  destruct (new_metric counter "agriassist_sensor_data_total" _ _ w3)
    as [[m4|e4] w4] eqn:E4; [|discriminate].
  destruct (new_metric counter _ _ _ w4) as [[m5|e5] w5] eqn:E5;
    [|discriminate].
  intros H. injection H as <-.
  apply new_metric_registered in E1, E2, E3, E4, E5.
  assert (Hin : "agriassist_requests_total" ∈ registry w5).
  { rewrite E5, E4, E3, E2, E1.
    do 4 apply elem_of_union_r. apply elem_of_union_l, elem_of_list_to_set.
    apply declared_name_exposed. }
  unfold define_metrics, Counter. cbv beta iota delta [mbind M_bind].
  unfold new_metric at 1.
  destruct (valid_metric X _ _ _); [|eexists; split; reflexivity].
  exists DuplicatedTimeseries. split; [|reflexivity].
  cbv beta iota delta [mbind M_bind]. unfold register.
  rewrite (duplicated_true _ w5 "agriassist_requests_total");
    [reflexivity| |exact Hin].
  apply declared_name_exposed.
Qed.

End Monitoring.

(** ** The theorems at sample inputs *)

(** "disk full" while the upload runs: logged once as an error, and the
    caller gets the same exception. *)
Lemma failure_logged_once_and_reraised_witness :
  let w := fresh_world steady_clock 20 [] in
  let func : M nat := raise disk_full in
  fst (monitor_endpoint plain_platform "upload" func w) = Raise disk_full
  /\ emitted (snd (monitor_endpoint plain_platform "upload" func w))
     = [error_call "upload" (1 - 0) disk_full].
Proof.
  intros w func.
  apply (failure_logged_once_and_reraised plain_platform "upload" func w
           (snd (wrapper_entry "upload" w)) disk_full);
    reflexivity.
Defined.

(** Two failures the wrapper does not treat as the claim says.  A
    cancelled upload: the cancellation reaches the caller and no error
    record is logged.  "disk full" while the sink is closed: the error call
    is made, and the caller gets the failure of the sink instead of
    "disk full". *)
Lemma failure_not_always_logged_and_reraised :
  let w := fresh_world steady_clock 20 [] in
  let w' := fresh_world steady_clock 20 [Some sink_closed] in
  let cancelled_upload : M nat := raise cancelled in
  let failing_upload : M nat := raise disk_full in
  (fst (cancelled_upload (snd (wrapper_entry "upload" w))) = Raise cancelled
   /\ fst (monitor_endpoint plain_platform "upload" cancelled_upload w)
      = Raise cancelled
   /\ emitted (snd (monitor_endpoint plain_platform "upload"
                      cancelled_upload w)) = [])
  /\ (fst (failing_upload (snd (wrapper_entry "upload" w'))) = Raise disk_full
      /\ fst (monitor_endpoint plain_platform "upload" failing_upload w')
         = Raise sink_closed
      /\ sink_closed <> disk_full).
Proof. repeat split. discriminate. Qed.

(** An upload that returns 7 while the disk of the sink is full: the
    caller gets the failure of the sink instead of 7, and a second,
    error-level record is logged. *)
Lemma result_lost_when_success_log_raises :
  let w := fresh_world steady_clock 20 [Some disk_full] in
  let func : M nat := mret 7 in
  fst (func (snd (wrapper_entry "upload" w))) = Return 7
  /\ fst (monitor_endpoint plain_platform "upload" func w) = Raise disk_full
  /\ map lc_method
       (emitted (snd (monitor_endpoint plain_platform "upload" func w)))
     = [INFO; ERROR].
Proof. repeat split. Qed.

(** An upload that returns 5: the caller gets 5 and one success record is
    logged. *)
Lemma success_returns_result_and_logs_once_witness :
  let w := fresh_world steady_clock 20 [] in
  let func : M nat := mret 5 in
  fst (monitor_endpoint plain_platform "upload" func w) = Return 5
  /\ emitted (snd (monitor_endpoint plain_platform "upload" func w))
     = [success_call "upload" (1 - 0)].
Proof.
  intros w func.
  apply (success_returns_result_and_logs_once plain_platform "upload" func w
           (snd (wrapper_entry "upload" w)) 5);
    reflexivity.
Defined.

(** The upload returns 5, the write of the success line fails: the caller
    gets the failure of the sink instead of 5. *)
Lemma sink_failure_not_contained :
  let w := fresh_world steady_clock 20 [Some sink_closed] in
  let func : M nat := mret 5 in
  fst (func (snd (wrapper_entry "upload" w))) = Return 5
  /\ fst (monitor_endpoint plain_platform "upload" func w) = Raise sink_closed.
Proof. split; reflexivity. Qed.

Lemma sink_failure_reaches_caller_witness :
  let w := fresh_world steady_clock 20 [Some sink_closed; Some disk_full] in
  let func : M nat := mret 5 in
  fst (monitor_endpoint plain_platform "upload" func w) = Raise disk_full.
Proof.
  intros w func.
  apply (sink_failure_reaches_caller plain_platform "upload" func w
           (snd (wrapper_entry "upload" w)) 5 sink_closed [Some disk_full]);
    reflexivity.
Defined.

(** The system clock is set back ten seconds while the request runs: the
    histogram receives a negative duration. *)
Lemma negative_duration_observed :
  let w := fresh_world clock_set_back 20 [] in
  last (observations REQUEST_DURATION
          (snd (monitor_endpoint plain_platform "upload" (mret tt) w)))
  = Some (90 - 100)%Q
  /\ (90 - 100 < 0)%Q.
Proof. split; reflexivity. Qed.

Lemma observed_duration_is_clock_difference_witness :
  let w := fresh_world steady_clock 20 [] in
  last (observations REQUEST_DURATION
          (snd (monitor_endpoint plain_platform "upload" (mret tt) w)))
  = Some (4 - 0)%Q
  /\ (0 <= 4 - 0)%Q.
Proof.
  intros w.
  pose proof (observed_duration_is_clock_difference plain_platform "upload"
                (mret tt) w) as H.
  cbv zeta in H.
  assert (Hle : (now w <=
                 now (snd (wrapper_try plain_platform "upload" (now w)
                             (mret tt) (snd (wrapper_entry "upload" w)))))%Q)
    by (vm_compute; discriminate).
  specialize (H Hle). vm_compute in H |- *. exact H.
Defined.

(** The declaration of line 8, run a second time as it stands: the first
    run registers the counter, the second raises. *)
Lemma identical_redefinition_raises :
  let define :=
    Counter plain_platform "agriassist_requests_total" "Total requests"
            ["method"; "endpoint"] in
  let w := fresh_world steady_clock 20 [] in
  fst (define w) = Return REQUEST_COUNT
  /\ fst (define (snd (define w))) = Raise DuplicatedTimeseries.
Proof. split; vm_compute; reflexivity. Qed.

Lemma redefinition_always_rejected_witness :
  let w := fresh_world steady_clock 20 [] in
  let w' := snd (Counter plain_platform "agriassist_requests_total"
                   "Total requests" ["method"; "endpoint"] w) in
  exists e : exn,
    Gauge plain_platform "agriassist_requests_total" "Requests in flight" [] w'
    = (Raise e, w')
    /\ exc_class e = ValueError.
Proof.
  intros w w'.
  apply (redefinition_always_rejected plain_platform counter gauge
           "agriassist_requests_total" "Total requests" "Requests in flight"
           ["method"; "endpoint"] [] w w' REQUEST_COUNT).
  vm_compute. reflexivity.
Defined.

(** A cancelled request: the cancellation reaches the caller, nothing is
    logged, and the duration is observed once. *)
Example cancelled_request :
  let w := fresh_world steady_clock 20 [] in
  let func : M nat := raise (mkExn CancelledError "") in
  let w' := snd (monitor_endpoint plain_platform "upload" func w) in
  fst (monitor_endpoint plain_platform "upload" func w)
  = Raise (mkExn CancelledError "")
  /\ emitted w' = []
  /\ observations REQUEST_DURATION w' = [(1 - 0)%Q]
  /\ counter_value REQUEST_COUNT ["POST"; "upload"] w' = 1%nat.
Proof. repeat split. Qed.

(** A request whose success line cannot be written: two log calls are
    made, the second one reporting a failed request, and the duration is
    still observed once. *)
Example unwritable_success_line :
  let w := fresh_world steady_clock 20 [Some sink_closed] in
  let func : M nat := mret 5 in
  let w' := snd (monitor_endpoint plain_platform "upload" func w) in
  map lc_method (emitted w') = [INFO; ERROR]
  /\ length (sink w') = 1%nat
  /\ length (observations REQUEST_DURATION w') = 1%nat.
Proof. repeat split. Qed.

(** At the default level of the stdlib logger ([WARNING]) the success
    record is dropped by the level filter: the call is made, no line is
    written. *)
Example success_record_below_level :
  let w := fresh_world steady_clock 30 [] in
  let w' := snd (monitor_endpoint plain_platform "upload" (mret 5%nat) w) in
  map lc_method (emitted w') = [INFO] /\ sink w' = [].
Proof. repeat split. Qed.

(** The five declarations of the module register on a fresh registry. *)
Example define_metrics_fresh :
  fst (define_metrics plain_platform (fresh_world steady_clock 20 []))
  = Return tt.
Proof. vm_compute. reflexivity. Qed.

(** ** The further theorems at sample inputs *)

Lemma pipeline_keys_overwritten_witness :
  let w := fresh_world steady_clock 20 [] in
  let ev := rendered_event plain_platform INFO "ML prediction made"
              prediction_fields (now w) in
  process_event plain_platform INFO "ML prediction made" prediction_fields w
  = (Return (VStr (run_JSONRenderer plain_platform ev)), tick w)
  /\ dict_get "event" ev = Some (VStr "ML prediction made")
  /\ dict_get "logger" ev = Some (VStr "monitoring")
  /\ dict_get "level" ev = Some (VStr "info")
  /\ dict_get "timestamp" ev = Some (VStr "1970-01-01T00:00:00Z").
Proof.
  intros w.
  apply (pipeline_keys_overwritten plain_platform INFO "ML prediction made"
           prediction_fields w);
    reflexivity.
Defined.

Lemma caller_fields_rendered_witness :
  let w := fresh_world steady_clock 20 [] in
  let ev := rendered_event plain_platform INFO "ML prediction made"
              prediction_fields (now w) in
  process_event plain_platform INFO "ML prediction made" prediction_fields w
  = (Return (VStr (run_JSONRenderer plain_platform ev)), tick w)
  /\ dict_get "confidence" ev
     = decode_value plain_platform
       <$> dict_get "confidence" prediction_fields.
Proof.
  intros w.
  apply (caller_fields_rendered plain_platform INFO "ML prediction made"
           prediction_fields w "confidence");
    try reflexivity.
  - compute_done.
  - compute_done.
Defined.

Lemma base_exception_passes_unlogged_witness :
  let w := fresh_world steady_clock 20 [] in
  let w2 := snd (wrapper_entry "upload" w) in
  let func : M nat := raise cancelled in
  monitor_endpoint plain_platform "upload" func w
  = (Raise cancelled,
     set_histograms
       (<[store_key REQUEST_DURATION :=
            (observations REQUEST_DURATION w2 ++ [(now w2 - now w)%Q])%list]>
          (histograms w2))
       (tick w2)).
Proof.
  intros w w2 func.
  apply (base_exception_passes_unlogged plain_platform "upload" func w w2
           cancelled);
    reflexivity.
Defined.

Lemma error_log_failure_replaces_original_witness :
  let w := fresh_world steady_clock 20 [Some sink_closed] in
  let w2 := snd (wrapper_entry "upload" w) in
  let func : M nat := raise disk_full in
  fst (monitor_endpoint plain_platform "upload" func w) = Raise sink_closed
  /\ emitted (snd (monitor_endpoint plain_platform "upload" func w))
     = (emitted w2 ++ [error_call "upload" (now w2 - now w) disk_full])%list
  /\ sink (snd (monitor_endpoint plain_platform "upload" func w)) = sink w2.
Proof.
  intros w w2 func.
  apply (error_log_failure_replaces_original plain_platform "upload" func w
           w2 disk_full sink_closed []);
    reflexivity.
Defined.

Lemma unwritten_success_reported_as_failure_witness :
  let w := fresh_world steady_clock 20 [Some sink_closed] in
  let w2 := snd (wrapper_entry "upload" w) in
  let func : M nat := mret 5 in
  exists later : nat,
    0 < later
    /\ emitted (snd (monitor_endpoint plain_platform "upload" func w))
       = (emitted w2
          ++ [ success_call "upload" (clock w2 (ticks w2) - now w);
               error_call "upload" (clock w2 (later + ticks w2) - now w)
                 sink_closed ])%list.
Proof.
  intros w w2 func.
  apply (unwritten_success_reported_as_failure plain_platform "upload" func
           w w2 5 sink_closed []);
    reflexivity.
Defined.

Lemma success_record_dropped_below_level_witness :
  let w := fresh_world steady_clock 30 [Some sink_closed] in
  let w2 := snd (wrapper_entry "upload" w) in
  let func : M nat := mret 5 in
  fst (monitor_endpoint plain_platform "upload" func w) = Return 5
  /\ emitted (snd (monitor_endpoint plain_platform "upload" func w))
     = (emitted w2 ++ [success_call "upload" (now w2 - now w)])%list
  /\ sink (snd (monitor_endpoint plain_platform "upload" func w)) = sink w2
  /\ sink_faults (snd (monitor_endpoint plain_platform "upload" func w))
     = sink_faults w2.
Proof.
  intros w w2 func.
  apply (success_record_dropped_below_level plain_platform "upload" func w
           w2 5);
    reflexivity.
Defined.

Lemma success_line_written_witness :
  let w := fresh_world steady_clock 20 [] in
  let w2 := snd (wrapper_entry "upload" w) in
  let func : M nat := mret 5 in
  sink (snd (monitor_endpoint plain_platform "upload" func w))
  = (sink w2
     ++ [ json_dumps plain_platform
            (VDict
               [ ("endpoint", VStr "upload");
                 ("duration", VFloat (now w2 - now w));
                 ("status", VStr "success");
                 ("event", VStr "API request completed");
                 ("logger", VStr (logger_name plain_platform));
                 ("level", VStr "info");
                 ("timestamp",
                  VStr (iso_format plain_platform
                          (clock w2 (S (ticks w2))))) ]) ])%list.
Proof.
  intros w w2 func.
  apply (success_line_written plain_platform "upload" func w w2 5);
    reflexivity.
Defined.

Lemma logged_duration_at_most_observed_witness :
  let w := fresh_world steady_clock 20 [] in
  let w2 := snd (wrapper_entry "upload" w) in
  let func : M nat := mret 5 in
  exists later : nat,
    0 < later
    /\ last (emitted (snd (monitor_endpoint plain_platform "upload" func w)))
       = Some (success_call "upload" (clock w2 (ticks w2) - now w))
    /\ last (observations REQUEST_DURATION
               (snd (monitor_endpoint plain_platform "upload" func w)))
       = Some (clock w2 (later + ticks w2) - now w)%Q
    /\ (clock w2 (ticks w2) - now w
        <= clock w2 (later + ticks w2) - now w)%Q.
Proof.
  intros w w2 func.
  apply (logged_duration_at_most_observed plain_platform "upload" func w w2 5).
  - reflexivity.
  - reflexivity.
  - intros i j Hij. change (clock w2) with steady_clock.
    unfold steady_clock, inject_Z, Qle. cbn [Qnum Qden]. lia.
Defined.

Lemma attempts_and_exits_in_step_witness :
  let w := fresh_world steady_clock 20 [] in
  let func : M nat := raise disk_full in
  counter_value REQUEST_COUNT ["POST"; "upload"]
    (after_calls plain_platform "upload" func 3 w)
  = 3 + counter_value REQUEST_COUNT ["POST"; "upload"] w
  /\ length (observations REQUEST_DURATION
               (after_calls plain_platform "upload" func 3 w))
     = 3 + length (observations REQUEST_DURATION w)
  /\ delete (request_key "upload")
       (counters (after_calls plain_platform "upload" func 3 w))
     = delete (request_key "upload") (counters w).
Proof.
  intros w func.
  apply (attempts_and_exits_in_step plain_platform "upload" func 3 w).
  intros w0. reflexivity.
Defined.

Lemma log_ml_prediction_records_witness :
  let w := fresh_world steady_clock 20 [] in
  fst (log_ml_prediction plain_platform "cnn" (1 # 2) w) = Return tt
  /\ counters (snd (log_ml_prediction plain_platform "cnn" (1 # 2) w))
     = <[prediction_key "cnn" :=
           S (counter_value MODEL_PREDICTIONS ["cnn"] w)]> (counters w)
  /\ emitted (snd (log_ml_prediction plain_platform "cnn" (1 # 2) w))
     = (emitted w
        ++ [mkLogCall INFO "ML prediction made"
              [ ("model_type", VStr "cnn");
                ("confidence", VFloat (1 # 2));
                ("timestamp", VFloat (now w)) ]])%list.
Proof.
  intros w.
  apply (log_ml_prediction_records plain_platform "cnn" (1 # 2) w).
  reflexivity.
Defined.

Lemma import_registers_series_witness :
  let w := fresh_world steady_clock 20 [] in
  fst (define_metrics plain_platform w) = Return tt
  /\ registry (snd (define_metrics plain_platform w))
     = list_to_set module_series ∪ registry w.
Proof.
  intros w.
  apply (import_registers_series plain_platform w); vm_compute; reflexivity.
Defined.

Lemma second_import_raises_witness :
  let w := fresh_world steady_clock 20 [] in
  let w' := snd (define_metrics plain_platform w) in
  exists e : exn,
    define_metrics plain_platform w' = (Raise e, w')
    /\ exc_class e = ValueError.
Proof.
  intros w w'.
  apply (second_import_raises plain_platform w w').
  vm_compute. reflexivity.
Defined.

(** The server on a taken port: the failure reaches the caller, nothing is
    logged. *)
Example metrics_server_port_taken :
  let w := fresh_world steady_clock 20 [] in
  start_metrics_server plain_platform port_taken None w
  = (Raise (mkExn OSError "Address already in use"), w).
Proof. reflexivity. Qed.

Example metrics_server_default_port :
  let w := fresh_world steady_clock 20 [] in
  map lc_event
    (emitted (snd (start_metrics_server plain_platform port_free None w)))
  = ["Metrics server started on port 9090"].
Proof. vm_compute. reflexivity. Qed.
